(** * Edit_PDF_fields: the form-field editor, its document store and its reporter

    A shallow embedding of [Edit_PDF_fields.py].  The program is a Tk front end
    over two PDF libraries; what it computes itself is
      - [load_widget], the field locator,
      - the mutation closures of the [action_*] handlers,
      - [fix_annots_page_binding],
      - [apply_change] and [action_undo] over the two globals
        [current_pdf_bytes] and [undo_stack],
      - [refresh_fields], the field reporter.
    The libraries are modelled by the interface the program uses them
    through: a table of indirect objects, handles into it that are mutated in
    place, and parse / save functions that may raise. *)

From Stdlib Require Import ZArith String Ascii List Lia Sorted.
From Stdlib.Strings Require Import Byte.
From stdpp Require Import base option list strings gmap pretty.

Local Open Scope string_scope.
Local Open Scope Z_scope.
Local Open Scope list_scope.

(* ===================================================================== *)
(** ** Exceptions *)
(* ===================================================================== *)

(** A Python computation either returns or raises; the payload of [Raise] is
    the text of the exception ([str(e)] in the log lines). *)
Inductive Exc (A : Type) : Type :=
| Ok (a : A)
| Raise (e : string).
Arguments Ok {A} a.
Arguments Raise {A} e.

#[global] Instance exc_ret : MRet Exc := fun A a => Ok a.
#[global] Instance exc_bind : MBind Exc := fun A B f m =>
  match m with
  | Ok a => f a
  | Raise e => Raise e
  end.

(* ===================================================================== *)
(** ** Python builtins used on the operator's input *)
(* ===================================================================== *)

Module Py.

(** [str.isspace] on the characters a [string] of this development can hold
    (one 8-bit character each): TAB, LF, VT, FF, CR, FS, GS, RS, US, SPACE. *)
Definition isspace (c : ascii) : bool :=
  let n := nat_of_ascii c in
  ((9 <=? n)%nat && (n <=? 13)%nat) || ((28 <=? n)%nat && (n <=? 32)%nat).

Fixpoint lstrip (s : string) : string :=
  match s with
  | String c s' => if isspace c then lstrip s' else s
  | EmptyString => EmptyString
  end.

(** [rstrip]: a character is kept when it is not a space or when something
    is kept after it. *)
Fixpoint rstrip (s : string) : string :=
  match s with
  | String c s' =>
      match rstrip s' with
      | EmptyString => if isspace c then EmptyString else String c EmptyString
      | t => String c t
      end
  | EmptyString => EmptyString
  end.

(** [str.strip()] *)
Definition strip (s : string) : string := rstrip (lstrip s).

Definition digit (c : ascii) : option Z :=
  let n := nat_of_ascii c in
  if ((48 <=? n)%nat && (n <=? 57)%nat) then Some (Z.of_nat n - 48) else None.

(** The digits of an [int] literal: decimal digits, single underscores
    allowed between two digits. *)
Fixpoint int_digits (s : string) (acc : Z) (after_digit : bool) : option Z :=
  match s with
  | EmptyString => if after_digit then Some acc else None
  | String c s' =>
      match digit c with
      | Some v => int_digits s' (10 * acc + v) true
      | None =>
          if (Ascii.eqb c "_"%char && after_digit)%bool
          then match s' with
               | EmptyString => None
               | _ => int_digits s' acc false
               end
          else None
      end
  end.

(** [int(s)] on a stripped string; [None] is [ValueError]. *)
Definition int (s : string) : option Z :=
  match s with
  | String "-"%char s' => Z.opp <$> int_digits s' 0 false
  | String "+"%char s' => int_digits s' 0 false
  | _ => int_digits s 0 false
  end.

(** Truth value of a [str]: the empty string is false. *)
Definition truthy (s : string) : bool :=
  match s with EmptyString => false | _ => true end.

End Py.

(* ===================================================================== *)
(** ** The object model of the structural library *)
(* ===================================================================== *)

(** Object number and generation. *)
Definition objgen : Type := Z * Z.

(** A real number, carried as the decimal literal the PDF syntax writes:
    [(m, k)] stands for m / 10^k. *)
Definition Dec : Type := Z * nat.

Definition dec_of_Z (z : Z) : Dec := (z, 0%nat).

(** PDF values: null, numbers, strings, names (kept with their leading
    slash), arrays, dictionaries and indirect references. *)
#[warnings="-register-all"]
Inductive Obj : Type :=
| ONull
| OBool (b : bool)
| OInt (z : Z)
| OReal (r : Dec)
| OStr (s : string)
| OName (s : string)
| OArr (l : list Obj)
| ODict (d : list (string * Obj))
| ORef (og : objgen).

(** Dictionaries keep their keys in order; a key occurs once. *)
Fixpoint dict_get (k : string) (d : list (string * Obj)) : option Obj :=
  match d with
  | [] => None
  | (k', v) :: d' => if String.eqb k' k then Some v else dict_get k d'
  end.

Fixpoint dict_set (k : string) (v : Obj) (d : list (string * Obj))
  : list (string * Obj) :=
  match d with
  | [] => [(k, v)]
  | (k', v') :: d' =>
      if String.eqb k' k then (k, v) :: d' else (k', v') :: dict_set k v d'
  end.

Fixpoint dict_del (k : string) (d : list (string * Obj))
  : list (string * Obj) :=
  match d with
  | [] => []
  | (k', v') :: d' =>
      if String.eqb k' k then dict_del k d' else (k', v') :: dict_del k d'
  end.

(** A step from a container into one of its direct members. *)
Inductive Step : Type :=
| SKey (k : string)
| SIdx (i : nat).

Fixpoint obj_at (o : Obj) (p : list Step) : option Obj :=
  match p with
  | [] => Some o
  | SKey k :: p' =>
      match o with
      | ODict d => dict_get k d ≫= fun o' => obj_at o' p'
      | _ => None
      end
  | SIdx i :: p' =>
      match o with
      | OArr l => l !! i ≫= fun o' => obj_at o' p'
      | _ => None
      end
  end.

Fixpoint obj_upd (f : Obj -> Obj) (o : Obj) (p : list Step) : Obj :=
  match p with
  | [] => f o
  | SKey k :: p' =>
      match o with
      | ODict d =>
          match dict_get k d with
          | Some o' => ODict (dict_set k (obj_upd f o' p') d)
          | None => o
          end
      | _ => o
      end
  | SIdx i :: p' =>
      match o with
      | OArr l =>
          match l !! i with
          | Some o' => OArr (<[i := obj_upd f o' p']> l)
          | None => o
          end
      | _ => o
      end
  end.

(** A parsed document: the table of indirect objects, the catalog the
    trailer names, and the page objects in document order ([pdf.pages]). *)
Record Pdf : Type := mkPdf {
  objects : gmap objgen Obj;
  root : objgen;
  pages : list objgen
}.

(** A handle on an object of the document, as the library hands them out.
    Handles share the document: writing through one is seen through all.
    [base] is the indirect object the value lives in and [path] leads from
    there to the value; an empty path is a handle on the indirect object
    itself. *)
Record Loc : Type := mkLoc {
  base : objgen;
  path : list Step
}.

Definition ind (og : objgen) : Loc := mkLoc og [].

(** [getattr(obj, "objid", None)] and [obj.objgen]: the program takes an
    object to carry them exactly when it is an indirect one ([is_ref]). *)
Definition objgen_of (h : Loc) : option objgen :=
  match path h with
  | [] => Some (base h)
  | _ => None
  end.

Definition objid (h : Loc) : option Z := fst <$> objgen_of h.

(** The value under a handle; an object that is not there reads as null. *)
Definition lookup_loc (d : Pdf) (h : Loc) : option Obj :=
  objects d !! base h ≫= fun o => obj_at o (path h).

Definition read (d : Pdf) (h : Loc) : Obj := default ONull (lookup_loc d h).

Definition write (d : Pdf) (h : Loc) (f : Obj -> Obj) : Pdf :=
  match objects d !! base h with
  | Some o => mkPdf (<[base h := obj_upd f o (path h)]> (objects d))
                    (root d) (pages d)
  | None => d
  end.

(** The handle on a member: a reference is followed to the indirect object,
    anything else stays inside its container. *)
Definition member (h : Loc) (s : Step) (v : Obj) : Loc :=
  match v with
  | ORef og => ind og
  | _ => mkLoc (base h) (path h ++ [s])
  end.

(** [pdf.get_object(objid)]: generation 0 is the default. *)
Definition get_object (n : Z) : Loc := ind (n, 0).

(** [key in obj] *)
Definition has_key (d : Pdf) (h : Loc) (k : string) : Exc bool :=
  match read d h with
  | ODict kv => Ok (bool_decide (is_Some (dict_get k kv)))
  | _ => Raise "pikepdf.Object is not a Dictionary or Stream"
  end.

(** [obj.get(key)] *)
Definition get (d : Pdf) (h : Loc) (k : string) : Exc (option Loc) :=
  match read d h with
  | ODict kv => Ok (member h (SKey k) <$> dict_get k kv)
  | _ => Raise "pikepdf.Object is not a Dictionary or Stream"
  end.

(** [obj[key]] and attribute access [obj.Key] *)
Definition getitem (d : Pdf) (h : Loc) (k : string) : Exc Loc :=
  o ← get d h k;
  match o with
  | Some h' => Ok h'
  | None => Raise ("KeyError: " +:+ k)
  end.

(** [obj[key] = v] *)
Definition setitem (d : Pdf) (h : Loc) (k : string) (v : Obj) : Exc Pdf :=
  match read d h with
  | ODict kv => Ok (write d h (fun _ => ODict (dict_set k v kv)))
  | _ => Raise "pikepdf.Object is not a Dictionary or Stream"
  end.

(** [del obj[key]] *)
Definition delitem (d : Pdf) (h : Loc) (k : string) : Exc Pdf :=
  match read d h with
  | ODict kv =>
      match dict_get k kv with
      | Some _ => Ok (write d h (fun _ => ODict (dict_del k kv)))
      | None => Raise ("KeyError: " +:+ k)
      end
  | _ => Raise "pikepdf.Object is not a Dictionary or Stream"
  end.

(** [for x in obj]: the members of an array.  A dictionary iterates over its
    keys, plain strings, on which every use the program makes of a member
    raises; only the empty dictionary gets through, with no member. *)
Definition iterate (d : Pdf) (h : Loc) : Exc (list Loc) :=
  match read d h with
  | OArr l => Ok (imap (fun i v => member h (SIdx i) v) l)
  | ODict [] => Ok []
  | _ => Raise "TypeError: object is not iterable as objects"
  end.

(** [arr.append(obj)] *)
Definition append (d : Pdf) (h : Loc) (v : Obj) : Exc Pdf :=
  match read d h with
  | OArr l => Ok (write d h (fun _ => OArr (l ++ [v])))
  | _ => Raise "TypeError: object is not an array"
  end.

(** The value written when a handle is stored into a container: an indirect
    object is stored as a reference to it, a direct one as its value. *)
Definition as_value (d : Pdf) (h : Loc) : Obj :=
  match objgen_of h with
  | Some og => ORef og
  | None => read d h
  end.

(** [obj == s] for a Python string [s]: a string or a name with that text. *)
Definition eq_str (o : Obj) (s : string) : bool :=
  match o with
  | OStr t | OName t => String.eqb t s
  | _ => false
  end.

(** The value is an indirect reference. *)
Definition is_ORef (v : Obj) : bool :=
  match v with ORef _ => true | _ => false end.

(** [is_ref(obj)]: [hasattr(obj, "objid")]. *)
Definition is_ref (obj : Loc) : bool :=
  match objid obj with Some _ => true | None => false end.

(** [pdf.make_indirect(obj)]: the object gets the next free object number. *)
Definition next_objid (d : Pdf) : Z :=
  1 + foldr Z.max 0 (fst <$> (map_to_list (objects d)).*1).

Definition make_indirect (d : Pdf) (o : Obj) : Pdf * Loc :=
  let og := (next_objid d, 0) in
  (mkPdf (<[og := o]> (objects d)) (root d) (pages d), ind og).

(** [seq[i]] with Python's negative indices; [None] is [IndexError]. *)
Definition py_index {A} (l : list A) (i : Z) : option A :=
  let n := Z.of_nat (length l) in
  if (0 <=? i) && (i <? n) then l !! Z.to_nat i
  else if (- n <=? i) && (i <? 0) then l !! Z.to_nat (n + i)
  else None.

(* ===================================================================== *)
(** ** PDF helpers *)
(* ===================================================================== *)

(** The inner [resolve] of [load_widget]. *)
Definition resolve (obj : Loc) : Loc :=
  match objid obj with
  | Some n => get_object n
  | None => obj
  end.

(** [obj.get("/T") == field_name] *)
Definition name_is (pdf : Pdf) (t : option Loc) (field_name : string) : bool :=
  match t with
  | Some h => eq_str (read pdf h) field_name
  | None => false
  end.

(** The loop over [field_obj["/Kids"]]: [Some] is the early return. *)
Fixpoint scan_kids (pdf : Pdf) (field_name : string) (kids : list Loc)
  : Exc (option Loc) :=
  match kids with
  | [] => Ok None
  | kid :: rest =>
      let kid_obj := resolve kid in
      t ← get pdf kid_obj "/T";
      if name_is pdf t field_name then Ok (Some kid_obj)
      else scan_kids pdf field_name rest
  end.

(** The loop over [form.Fields]. *)
Fixpoint scan_fields (pdf : Pdf) (field_name : string) (fields : list Loc)
  : Exc (option Loc) :=
  match fields with
  | [] => Ok None
  | field :: rest =>
      let field_obj := resolve field in
      has_kids ← has_key pdf field_obj "/Kids";
      found ← (if has_kids : bool
               then kids ← getitem pdf field_obj "/Kids";
                    kid_list ← iterate pdf kids;
                    scan_kids pdf field_name kid_list
               else Ok None);
      match found with
      | Some kid_obj => Ok (Some kid_obj)
      | None =>
          t ← get pdf field_obj "/T";
          if name_is pdf t field_name then Ok (Some field_obj)
          else scan_fields pdf field_name rest
      end
  end.

Definition load_widget (pdf : Pdf) (field_name : string) : Exc (option Loc) :=
  let Root := ind (root pdf) in
  has_form ← has_key pdf Root "/AcroForm";
  if negb has_form then Ok None
  else
    form ← getitem pdf Root "/AcroForm";
    has_fields ← has_key pdf form "/Fields";
    if negb has_fields then Ok None
    else
      fields ← getitem pdf form "/Fields";
      field_list ← iterate pdf fields;
      scan_fields pdf field_name field_list.

Definition fix_annots_page_binding (pdf : Pdf) (widget : Loc) (page_index : Z)
  : Exc Pdf :=
  match py_index (pages pdf) page_index with
  | None => Raise "IndexError"
  | Some pg =>
      let page := ind pg in
      pdf ← setitem pdf widget "/P" (ORef pg);
      has_annots ← has_key pdf page "/Annots";
      pdf ← (if has_annots : bool then Ok pdf
             else setitem pdf page "/Annots" (OArr []));
      match objid widget with
      | None => Ok pdf
      | Some w_id =>
          annots ← getitem pdf page "/Annots";
          elems ← iterate pdf annots;
          if existsb (fun a => bool_decide (objid a = Some w_id)) elems
          then Ok pdf
          else append pdf annots (as_value pdf widget)
      end
  end.

Definition set_invalid_page_reference (pdf : Pdf) (widget : Loc)
    (fake_objid : Z) : Exc Pdf :=
  setitem pdf widget "/P" (ORef (fake_objid, 0)).

(* ===================================================================== *)
(** ** The window: log pane, field table, message boxes *)
(* ===================================================================== *)

(** A cell of the field table holds a number, a text, or a library value. *)
Inductive Cell : Type :=
| CNum (z : Z)
| CText (s : string)
| CObj (o : Obj).

(** The columns ("Field", "PhysPage", "Page", "PageId", "Rect"). *)
Record Row : Type := mkRow {
  col_field : Cell;
  col_phys_page : Z;
  col_page : Cell;
  col_page_id : string;
  col_rect : string
}.

Inductive Box : Type :=
| ShowError (title msg : string)
| ShowInfo (title msg : string).

Record Gui : Type := mkGui {
  log_box : list string;
  tree : list Row;
  boxes : list Box
}.

Definition log (msg : string) (g : Gui) : Gui :=
  mkGui (log_box g ++ [msg]) (tree g) (boxes g).

Definition messagebox (b : Box) (g : Gui) : Gui :=
  mkGui (log_box g) (tree g) (boxes g ++ [b]).

Definition set_tree (rows : list Row) (g : Gui) : Gui :=
  mkGui (log_box g) rows (boxes g).

(** The globals of the program, with the window. *)
Record World : Type := mkWorld {
  current_pdf_bytes : option (list byte);
  undo_stack : list (list byte);
  gui : Gui
}.

Definition with_gui (g : Gui) (w : World) : World :=
  mkWorld (current_pdf_bytes w) (undo_stack w) g.

(** How an event handler ends: it returns, or an exception leaves it. *)
Inductive Completion : Type :=
| Normal
| Uncaught (e : string).

(** What a [change_func(pdf)] call leaves behind: the truth value it
    returned with the document it worked on, or the exception it raised;
    in both cases the window as it left it. *)
Inductive Outcome : Type :=
| Returned (changed : bool) (pdf : Pdf) (g : Gui)
| Raised (e : string) (g : Gui).

Definition Change : Type := Pdf -> Gui -> Outcome.

(* ===================================================================== *)
(** ** The editor *)
(* ===================================================================== *)

Section Editor.

(** The two libraries and the two Python conversions the program calls:
    [pikepdf.Pdf.open] on a buffer, [pdf.save] into a buffer, [fitz.open]
    (the object numbers of the pages, in order, is all the program reads
    from it), [str(float(x))] on a number and [str(obj)] on a library
    value. *)
Variable pike_open : list byte -> Exc Pdf.
Variable pike_save : Pdf -> Exc (list byte).
Variable fitz_open : list byte -> Exc (list Z).
Variable float_repr : Dec -> string.
Variable obj_str : Obj -> string.

(** [repr] of a list of floats, as an f-string prints it. *)
Definition floats_repr (l : list Dec) : string :=
  "[" +:+ String.concat ", " (float_repr <$> l) +:+ "]".

(** *** The field reporter *)

(** [str(float(x))]; [None] when [float] raises. *)
Definition float_str (pdf : Pdf) (x : Loc) : option string :=
  match read pdf x with
  | OInt z => Some (float_repr (dec_of_Z z))
  | OReal r => Some (float_repr r)
  | OBool b => Some (float_repr (dec_of_Z (if b then 1 else 0)))
  | _ => None
  end.

(** The "Rect" column. *)
Definition rect_str (pdf : Pdf) (rect : option Loc) : string :=
  match rect with
  | None => "[]"
  | Some h =>
      match iterate pdf h with
      | Ok elems =>
          match mapM (float_str pdf) elems with
          | Some strs => "[" +:+ String.concat ", " strs +:+ "]"
          | None => obj_str (read pdf h)
          end
      | Raise _ => obj_str (read pdf h)
      end
  end.

(** The [for i in range(len(doc_fitz))] search, from index [i] on. *)
Fixpoint mapped_page_index (xrefs : list Z) (target_xref : Z) (i : nat)
  : option nat :=
  match xrefs with
  | [] => None
  | x :: rest =>
      if Z.eqb x target_xref then Some i
      else mapped_page_index rest target_xref (S i)
  end.

(** The "Page" column. *)
Definition page_num (doc_fitz : list Z) (p_val : option Loc) : Cell :=
  match p_val with
  | None => CText ""
  | Some p =>
      match objgen_of p with
      | Some (target_xref, _) =>
          match mapped_page_index doc_fitz target_xref 0 with
          | Some i => CNum (Z.of_nat i + 1)
          | None => CText "(invalid)"
          end
      | None => CText "(invalid)"
      end
  end.

(** The "PageId" column. *)
Definition page_id (p_val : option Loc) : string :=
  match p_val with
  | None => ""
  | Some p =>
      match objgen_of p with
      | Some (objnum, gennum) => pretty objnum +:+ " " +:+ pretty gennum +:+ " R"
      | None => "(inline)"
      end
  end.

(** The body of the inner loop, for an annotation that is a widget. *)
Definition widget_row (doc_fitz : list Z) (pdf : Pdf) (phys_page_index : nat)
    (annot : Loc) : Exc Row :=
  t ← get pdf annot "/T";
  let name := match t with
              | Some h => CObj (read pdf h)
              | None => CText ""
              end in
  rect ← get pdf annot "/Rect";
  p_val ← get pdf annot "/P";
  Ok (mkRow name (Z.of_nat phys_page_index + 1) (page_num doc_fitz p_val)
            (page_id p_val) (rect_str pdf rect)).

(** The inner loop: [rows] is the list appended to. *)
Fixpoint report_annots (doc_fitz : list Z) (pdf : Pdf) (phys_page_index : nat)
    (annots : list Loc) (rows : list Row) : Exc (list Row) :=
  match annots with
  | [] => Ok rows
  | annot :: rest =>
      subtype ← get pdf annot "/Subtype";
      if negb (name_is pdf subtype "/Widget")
      then report_annots doc_fitz pdf phys_page_index rest rows
      else
        row ← widget_row doc_fitz pdf phys_page_index annot;
        report_annots doc_fitz pdf phys_page_index rest (rows ++ [row])
  end.

(** [page.get("/Annots", [])], ready to be iterated. *)
Definition page_annots (pdf : Pdf) (pg : objgen) : Exc (list Loc) :=
  a ← get pdf (ind pg) "/Annots";
  match a with
  | Some h => iterate pdf h
  | None => Ok []
  end.

(** The outer loop, [enumerate(pdf.pages)] from index [phys_page_index]. *)
Fixpoint report_pages (doc_fitz : list Z) (pdf : Pdf) (phys_page_index : nat)
    (pgs : list objgen) (rows : list Row) : Exc (list Row) :=
  match pgs with
  | [] => Ok rows
  | pg :: rest =>
      annots ← page_annots pdf pg;
      rows' ← report_annots doc_fitz pdf phys_page_index annots rows;
      report_pages doc_fitz pdf (S phys_page_index) rest rows'
  end.

Definition report (doc_fitz : list Z) (pdf : Pdf) : Exc (list Row) :=
  report_pages doc_fitz pdf 0 (pages pdf) [].

Definition refresh_fields (w : World) : World * Completion :=
  let w := with_gui (set_tree [] (gui w)) w in
  match current_pdf_bytes w with
  | None => (w, Normal)
  | Some bytes =>
      match fitz_open bytes with
      | Raise e => (with_gui (log ("❌ PyMuPDF error: " +:+ e) (gui w)) w, Normal)
      | Ok doc_fitz =>
          match pike_open bytes with
          | Raise e =>
              (with_gui (log ("❌ PikePDF error: " +:+ e) (gui w)) w, Normal)
          | Ok pdf =>
              match report doc_fitz pdf with
              | Raise e => (w, Uncaught e)
              | Ok rows =>
                  (with_gui
                     (log ("✔ Найдено полей: " +:+ pretty (length rows))
                        (set_tree (tree (gui w) ++ rows) (gui w))) w,
                   Normal)
              end
          end
      end
  end.

(** *** The change applicator and undo *)

Definition apply_change (change_func : Change) (action_name : string)
    (w : World) : World * Completion :=
  match current_pdf_bytes w with
  | None =>
      (with_gui (messagebox (ShowError "Ошибка" "Сначала открой PDF.") (gui w)) w,
       Normal)
  | Some prev_bytes =>
      let error e g :=
        (with_gui (log ("❌ ERROR (" +:+ action_name +:+ "): " +:+ e) g) w,
         Normal) in
      match pike_open prev_bytes with
      | Raise e => error e (gui w)
      | Ok pdf =>
          match change_func pdf (gui w) with
          | Raised e g => error e g
          | Returned false _ g => (with_gui g w, Normal)
          | Returned true pdf' g =>
              match pike_save pdf' with
              | Raise e => error e g
              | Ok new_bytes =>
                  let g := if Py.truthy action_name
                           then log ("✔ " +:+ action_name +:+ " выполнено.") g
                           else g in
                  refresh_fields
                    (mkWorld (Some new_bytes) (undo_stack w ++ [prev_bytes]) g)
              end
          end
      end
  end.

Definition action_undo (w : World) : World * Completion :=
  match reverse (undo_stack w) with
  | [] =>
      (with_gui (messagebox (ShowInfo "Undo" "Нет действий для отмены.") (gui w)) w,
       Normal)
  | top :: below =>
      refresh_fields
        (mkWorld (Some top) (reverse below)
           (log "⏪ Undo: откат к предыдущей версии PDF." (gui w)))
  end.

(** *** The handlers of the field buttons *)

(** [sel] is the name in the selected row of the table, if one is selected. *)
Definition get_selected_field (sel : option string) (g : Gui)
  : option string * Gui :=
  match sel with
  | None =>
      (None, messagebox (ShowError "Ошибка" "Выберите поле в списке слева.") g)
  | Some field_name => (Some field_name, g)
  end.

(** The common head of the closures: locate the field or give up.  A handle
    that [load_widget] returns has a "/T" entry, so its truth value is true
    and [not widget] holds for [None] only. *)
Definition with_widget (not_found : string) (name : string)
    (body : Loc -> Pdf -> Gui -> Outcome) : Change := fun pdf g =>
  match load_widget pdf name with
  | Raise e => Raised e g
  | Ok None => Returned false pdf (messagebox (ShowError "Ошибка" not_found) g)
  | Ok (Some widget) => body widget pdf g
  end.

Definition change_clear_rect (name : string) : Change :=
  with_widget "Поле не найдено в pikepdf." name (fun widget pdf g =>
    match setitem pdf widget "/Rect" (OArr []) with
    | Raise e => Raised e g
    | Ok pdf =>
        Returned true pdf
          (log ("🧽 /Rect очищен (пустой массив) для поля '" +:+ name +:+ "'.") g)
    end).

Definition change_delete_rect_key (name : string) : Change :=
  with_widget "Поле не найдено в pikepdf." name (fun widget pdf g =>
    match has_key pdf widget "/Rect" with
    | Raise e => Raised e g
    | Ok true =>
        match delitem pdf widget "/Rect" with
        | Raise e => Raised e g
        | Ok pdf =>
            Returned true pdf
              (log ("❌ Ключ /Rect полностью удалён у '" +:+ name +:+ "'.") g)
        end
    | Ok false =>
        Returned false pdf
          (log ("ℹ У поля '" +:+ name +:+ "' нет ключа /Rect (удалять нечего).") g)
    end).

Definition change_set_rect (name : string) (rect : list Dec) : Change :=
  with_widget "Поле не найдено в pikepdf." name (fun widget pdf g =>
    match setitem pdf widget "/Rect" (OArr (OReal <$> rect)) with
    | Raise e => Raised e g
    | Ok pdf =>
        Returned true pdf
          (log ("📐 /Rect для '" +:+ name +:+ "' установлен: "
                +:+ floats_repr rect) g)
    end).

Definition change_delete_p (name : string) : Change :=
  with_widget "Поле не найдено." name (fun widget pdf g =>
    match has_key pdf widget "/P" with
    | Raise e => Raised e g
    | Ok true =>
        match delitem pdf widget "/P" with
        | Raise e => Raised e g
        | Ok pdf => Returned true pdf (log ("❌ /P удалён у '" +:+ name +:+ "'.") g)
        end
    | Ok false =>
        Returned true pdf
          (log ("ℹ У поля '" +:+ name +:+ "' нет /P — нечего удалять.") g)
    end).

Definition change_set_p_empty (name : string) : Change :=
  with_widget "Поле не найдено." name (fun widget pdf g =>
    match setitem pdf widget "/P" (OArr []) with
    | Raise e => Raised e g
    | Ok pdf =>
        Returned true pdf
          (log ("⚪ /P очищен (ставим пустой массив) у '" +:+ name +:+ "'.") g)
    end).

(** [fake_ref.objgen = (9999, 0)]: the handle is made to name that object. *)
Definition force_objgen (h : Loc) (og : objgen) : Loc := mkLoc og (path h).

Definition change_set_p (name : string) (page : Z) : Change :=
  let page_index := page - 1 in
  with_widget "Поле не найдено." name (fun widget pdf g =>
    let num_pages := Z.of_nat (length (pages pdf)) in
    if (0 <=? page_index) && (page_index <? num_pages) then
      match py_index (pages pdf) page_index with
      | None => Raised "IndexError" g
      | Some real_page =>
          match (pdf ← setitem pdf widget "/P" (ORef real_page);
                 fix_annots_page_binding pdf widget page_index) with
          | Raise e => Raised e g
          | Ok pdf =>
              Returned true pdf
                (log ("📌 /P для '" +:+ name +:+ "' → страница "
                      +:+ pretty page +:+ ".") g)
          end
      end
    else
      let '(pdf, fake_ref) := make_indirect pdf (ODict []) in
      let fake_ref := force_objgen fake_ref (9999, 0) in
      match setitem pdf widget "/P" (as_value pdf fake_ref) with
      | Raise e => Raised e g
      | Ok pdf =>
          Returned true pdf
            (log ("⚠ Страницы " +:+ pretty page +:+ " нет. /P для '" +:+ name
                  +:+ "' → 9999 0 R (invalid).") g)
      end).

(** An event handler that needs the selected field. *)
Definition on_selected (sel : option string) (w : World)
    (k : string -> World -> World * Completion) : World * Completion :=
  let '(name, g) := get_selected_field sel (gui w) in
  let w := with_gui g w in
  match name with
  | None => (w, Normal)
  | Some name => if Py.truthy name then k name w else (w, Normal)
  end.

Definition action_clear_rect (sel : option string) (w : World)
  : World * Completion :=
  on_selected sel w (fun name =>
    apply_change (change_clear_rect name) "Clear /Rect (empty array)").

Definition action_delete_rect_key (sel : option string) (w : World)
  : World * Completion :=
  on_selected sel w (fun name =>
    apply_change (change_delete_rect_key name) "Delete /Rect key").

(** The four [askfloat] answers; [None] is a cancelled prompt. *)
Definition action_set_rect (sel : option string)
    (left bottom right top : option Dec) (w : World) : World * Completion :=
  on_selected sel w (fun name w =>
    match left, bottom, right, top with
    | Some l, Some b, Some r, Some t =>
        apply_change (change_set_rect name [l; b; r; t]) "Set /Rect" w
    | _, _, _, _ => (w, Normal)
    end).

Definition action_delete_p (sel : option string) (w : World)
  : World * Completion :=
  on_selected sel w (fun name =>
    apply_change (change_delete_p name) "Delete /P").

(** [answer] is what [askstring] returned; [None] is Cancel. *)
Definition action_set_p (sel : option string) (answer : option string)
    (w : World) : World * Completion :=
  on_selected sel w (fun name w =>
    match answer with
    | None => (w, Normal)
    | Some page_str =>
        let page_str := Py.strip page_str in
        if negb (Py.truthy page_str)
        then apply_change (change_set_p_empty name) "Set empty /P" w
        else
          match Py.int page_str with
          | None =>
              (with_gui
                 (messagebox
                    (ShowError "Ошибка" "Введите число или оставьте поле пустым.")
                    (gui w)) w,
               Normal)
          | Some page => apply_change (change_set_p name page) "Set /P" w
          end
    end).

(* ===================================================================== *)
(** ** What the statements below are phrased with *)
(* ===================================================================== *)

(** The raw value of an attribute of a field or page; [None] when the
    attribute is absent. *)
Definition field_get (pdf : Pdf) (h : Loc) (k : string) : option Obj :=
  match read pdf h with
  | ODict kv => dict_get k kv
  | _ => None
  end.

(** The ways [apply_change] can fail between opening the buffer and having
    the new bytes: the parse raises, the mutation procedure raises, or the
    procedure reports a change and saving raises.  [e] is the exception text
    and [g] the window at that point. *)
Inductive Fails (change_func : Change) (prev_bytes : list byte) (g0 : Gui)
  : string -> Gui -> Prop :=
| fails_parse e :
    pike_open prev_bytes = Raise e ->
    Fails change_func prev_bytes g0 e g0
| fails_mutation pdf e g :
    pike_open prev_bytes = Ok pdf ->
    change_func pdf g0 = Raised e g ->
    Fails change_func prev_bytes g0 e g
| fails_save pdf pdf' e g :
    pike_open prev_bytes = Ok pdf ->
    change_func pdf g0 = Returned true pdf' g ->
    pike_save pdf' = Raise e ->
    Fails change_func prev_bytes g0 e g.

(** A mutation that goes through: the buffer parses, the procedure reports a
    change, and the mutated document is saved as [new_bytes]. *)
Definition Succeeds (change_func : Change) (prev_bytes : list byte) (g0 : Gui)
    (new_bytes : list byte) : Prop :=
  exists pdf pdf' g,
    pike_open prev_bytes = Ok pdf /\
    change_func pdf g0 = Returned true pdf' g /\
    pike_save pdf' = Ok new_bytes.

(** The document store: the two globals without the window. *)
Definition store (w : World) : option (list byte) * list (list byte) :=
  (current_pdf_bytes w, undo_stack w).

(** A located field is a dictionary whose "/T" compares equal to the name
    asked for. *)
Definition located (pdf : Pdf) (field_name : string) (widget : Loc) : Prop :=
  exists kv, read pdf widget = ODict kv /\
             name_is pdf (member widget (SKey "/T") <$> dict_get "/T" kv)
                     field_name = true.

(** *** A small document to run the program on

    One page (object 3) and one text field "F" (object 4), a widget on that
    page with neither "/Rect" nor "/P". *)
Definition demo_widget : Obj :=
  ODict [("/Type", OName "/Annot"); ("/Subtype", OName "/Widget");
         ("/FT", OName "/Tx"); ("/T", OStr "F")].

Definition demo_pdf : Pdf :=
  mkPdf
    (list_to_map
       [((1, 0), ODict [("/Type", OName "/Catalog"); ("/Pages", ORef (2, 0));
                        ("/AcroForm", ODict [("/Fields", OArr [ORef (4, 0)])])]);
        ((2, 0), ODict [("/Type", OName "/Pages"); ("/Kids", OArr [ORef (3, 0)]);
                        ("/Count", OInt 1)]);
        ((3, 0), ODict [("/Type", OName "/Page"); ("/Parent", ORef (2, 0));
                        ("/Annots", OArr [ORef (4, 0)])]);
        ((4, 0), demo_widget)])
    (1, 0)
    [(3, 0)].

(** Stand-ins for the libraries: every non-empty buffer opens as
    [demo_pdf], the empty one is refused, and saving always gives the same
    two bytes. *)
Definition demo_open (bytes : list byte) : Exc Pdf :=
  match bytes with
  | [] => Raise "cannot open an empty file"
  | _ => Ok demo_pdf
  end.

Definition demo_saved : list byte := ["%"%byte; "2"%byte].

Definition demo_save (pdf : Pdf) : Exc (list byte) := Ok demo_saved.

Definition demo_fitz (bytes : list byte) : Exc (list Z) :=
  pdf ← demo_open bytes; Ok (fst <$> pages pdf).

(** A stand-in for [str(float(x))] that is right on whole numbers. *)
Definition demo_float_repr (x : Dec) : string :=
  pretty (fst x `quot` 10 ^ Z.of_nat (snd x)) +:+ ".0".

Definition demo_obj_str (o : Obj) : string := "<pikepdf.Object>".

Definition demo_gui : Gui := mkGui [] [] [].

Definition demo_world : World :=
  mkWorld (Some ["%"%byte; "1"%byte]) [] demo_gui.

(** The object numbers of the pages, what [doc_fitz[i].xref] gives for the
    file the document was parsed from. *)
Definition page_xrefs (pdf : Pdf) : list Z := fst <$> pages pdf.

(** *** The field locator, as the specification words it *)

Definition is_dict (pdf : Pdf) (h : Loc) : bool :=
  match read pdf h with ODict _ => true | _ => false end.

(** The members of an array, as handles; nothing for anything else. *)
Definition members (pdf : Pdf) (h : Loc) : list Loc :=
  match read pdf h with
  | OArr l => imap (fun i v => member h (SIdx i) v) l
  | _ => []
  end.

Definition is_array (pdf : Pdf) (h : Loc) : bool :=
  match read pdf h with OArr _ => true | _ => false end.

(** The handle on an attribute that is there. *)
Definition attr (pdf : Pdf) (h : Loc) (k : string) : option Loc :=
  member h (SKey k) <$> field_get pdf h k.

(** The name attribute of [h] equals the target. *)
Definition named (pdf : Pdf) (field_name : string) (h : Loc) : bool :=
  name_is pdf (attr pdf h "/T") field_name.

(** The children of an entry, resolved, in order; none without "/Kids". *)
Definition kids_of (pdf : Pdf) (entry : Loc) : list Loc :=
  match attr pdf entry "/Kids" with
  | Some kids => resolve <$> members pdf kids
  | None => []
  end.

(** What one top-level entry contributes: the first child in order whose
    name equals the target; otherwise the entry itself when its own name
    equals the target. *)
Definition entry_match (pdf : Pdf) (field_name : string) (entry : Loc)
  : option Loc :=
  match List.find (named pdf field_name) (kids_of pdf entry) with
  | Some kid => Some kid
  | None => if named pdf field_name entry then Some entry else None
  end.

(** The first entry, in order, that contributes something decides. *)
Definition locate (pdf : Pdf) (field_name : string) (entries : list Loc)
  : option Loc :=
  head (omap (entry_match pdf field_name) entries).

(** The form of a document, as far as the locator looks at it. *)
Inductive Form : Type :=
| NoForm
| NoFields
| Fields (entries : list Loc)
| Malformed.

Definition form_of (pdf : Pdf) : Form :=
  let Root := ind (root pdf) in
  if negb (is_dict pdf Root) then Malformed
  else
    match attr pdf Root "/AcroForm" with
    | None => NoForm
    | Some form =>
        if negb (is_dict pdf form) then Malformed
        else
          match attr pdf form "/Fields" with
          | None => NoFields
          | Some fields =>
              if is_array pdf fields
              then Fields (resolve <$> members pdf fields)
              else Malformed
          end
    end.

(** An entry the locator walks over without an exception: a dictionary
    whose "/Kids", when there, is an array of dictionaries. *)
Definition entry_ok (pdf : Pdf) (entry : Loc) : bool :=
  is_dict pdf entry
  && match attr pdf entry "/Kids" with
     | Some kids => is_array pdf kids
     | None => true
     end
  && forallb (is_dict pdf) (kids_of pdf entry).

(** *** The field reporter, as the specification words it *)

(** A widget-type annotation. *)
Definition is_widget (pdf : Pdf) (annot : Loc) : bool :=
  name_is pdf (attr pdf annot "/Subtype") "/Widget".

(** The annotation list of a page, in order; empty without "/Annots". *)
Definition annots_of (pdf : Pdf) (pg : objgen) : list Loc :=
  match attr pdf (ind pg) "/Annots" with
  | Some annots => members pdf annots
  | None => []
  end.

(** The page number behind a page link: the position, counted from 1, of
    the first page whose object number is the one the link refers to;
    "(invalid)" when there is a link and no such page, blank without a
    link. *)
Definition linked_page (doc_fitz : list Z) (p_val : option Loc) : Cell :=
  match p_val with
  | None => CText ""
  | Some p =>
      match objgen_of p with
      | Some og =>
          match list_find (fun x => x = fst og) doc_fitz with
          | Some (i, _) => CNum (Z.of_nat i + 1)
          | None => CText "(invalid)"
          end
      | None => CText "(invalid)"
      end
  end.

(** The number a value converts to with [float]. *)
Definition number_of (pdf : Pdf) (x : Loc) : option Dec :=
  match read pdf x with
  | OInt z => Some (dec_of_Z z)
  | OReal r => Some r
  | OBool b => Some (dec_of_Z (if b then 1 else 0))
  | _ => None
  end.

(** The elements of a rectangle value when all of them are numbers. *)
Definition numbers (pdf : Pdf) (rect : Loc) : option (list Dec) :=
  match read pdf rect with
  | OArr _ => mapM (number_of pdf) (members pdf rect)
  | ODict [] => Some []
  | _ => None
  end.

(** The rectangle string: the elements formatted as floats, the raw value
    when they are not all numbers. *)
Definition rect_text (pdf : Pdf) (rect : option Loc) : string :=
  match rect with
  | None => "[]"
  | Some h =>
      match numbers pdf h with
      | Some ds => floats_repr ds
      | None => obj_str (read pdf h)
      end
  end.

(** The row of a widget annotation found on the page at [phys_page_index]. *)
Definition row_of (doc_fitz : list Z) (pdf : Pdf) (phys_page_index : nat)
    (annot : Loc) : Row :=
  mkRow (match attr pdf annot "/T" with
         | Some t => CObj (read pdf t)
         | None => CText ""
         end)
        (Z.of_nat phys_page_index + 1)
        (linked_page doc_fitz (attr pdf annot "/P"))
        (page_id (attr pdf annot "/P"))
        (rect_text pdf (attr pdf annot "/Rect")).

(** The widgets of a page, in the order of its annotation list. *)
Definition widgets_of (pdf : Pdf) (pg : objgen) : list Loc :=
  List.filter (is_widget pdf) (annots_of pdf pg).

(** One row per widget annotation: pages in document order, and for each
    page its annotation list in order. *)
Definition rows_of (doc_fitz : list Z) (pdf : Pdf) : list Row :=
  concat (imap (fun i pg => row_of doc_fitz pdf i <$> widgets_of pdf pg)
               (pages pdf)).

(** A page the reporter walks over without an exception: a dictionary
    whose "/Annots", when there, is an array of dictionaries. *)
Definition page_ok (pdf : Pdf) (pg : objgen) : bool :=
  is_dict pdf (ind pg)
  && match attr pdf (ind pg) "/Annots" with
     | Some annots => is_array pdf annots
     | None => true
     end
  && forallb (is_dict pdf) (annots_of pdf pg).

(** [str(float(z))] of a whole number a float holds exactly. *)
Definition float_repr_on_integers : Prop :=
  forall z : Z, Z.abs z <= 2 ^ 53 ->
    float_repr (dec_of_Z z) = pretty z +:+ ".0".

(** *** What the loops over a container depend on

    [iterate] hands out a handle per member, and a handle is decided by
    whether the member is a reference and to what. *)
Definition elem_view (v : Obj) : option objgen :=
  match v with ORef og => Some og | _ => None end.

Definition iter_view (o : Obj) : option (list (option objgen)) :=
  match o with
  | OArr l => Some (elem_view <$> l)
  | ODict [] => Some []
  | _ => None
  end.

Definition handle_of (h : Loc) (s : Step) (e : option objgen) : Loc :=
  match e with
  | Some og => ind og
  | None => mkLoc (base h) (path h ++ [s])
  end.

Definition iterate_view (h : Loc) (view : option (list (option objgen)))
  : Exc (list Loc) :=
  match view with
  | Some es => Ok (imap (fun i e => handle_of h (SIdx i) e) es)
  | None => Raise "TypeError: object is not iterable as objects"
  end.

(** What [page.get("/Annots", [])] and the loop over it depend on in the
    page object: whether it is a dictionary, and then its "/Annots" entry,
    a reference or a direct value. *)
Definition annots_view (o : Obj)
  : option (option (objgen + option (list (option objgen)))) :=
  match o with
  | ODict d =>
      Some (match dict_get "/Annots" d with
            | None => None
            | Some (ORef og) => Some (inl og)
            | Some v => Some (inr (iter_view v))
            end)
  | _ => None
  end.

Definition page_annots_view (pdf : Pdf) (pg : objgen) : Exc (list Loc) :=
  match annots_view (read pdf (ind pg)) with
  | None => Raise "pikepdf.Object is not a Dictionary or Stream"
  | Some None => Ok []
  | Some (Some (inl og)) => iterate_view (ind og) (iter_view (read pdf (ind og)))
  | Some (Some (inr view)) => iterate_view (mkLoc pg [SKey "/Annots"]) view
  end.

(** The same document with the page stored as object 9999. *)
Definition demo_pdf_9999 : Pdf :=
  mkPdf
    (list_to_map
       [((1, 0), ODict [("/Type", OName "/Catalog"); ("/Pages", ORef (2, 0));
                        ("/AcroForm", ODict [("/Fields", OArr [ORef (4, 0)])])]);
        ((2, 0), ODict [("/Type", OName "/Pages");
                        ("/Kids", OArr [ORef (9999, 0)]); ("/Count", OInt 1)]);
        ((9999, 0), ODict [("/Type", OName "/Page"); ("/Parent", ORef (2, 0));
                           ("/Annots", OArr [ORef (4, 0)])]);
        ((4, 0), demo_widget)])
    (1, 0)
    [(9999, 0)].

(** A document whose field "F" is written directly into the field list, and
    whose page has no annotation list yet. *)
Definition demo_pdf_direct : Pdf :=
  mkPdf
    (list_to_map
       [((1, 0), ODict [("/Type", OName "/Catalog"); ("/Pages", ORef (2, 0));
                        ("/AcroForm", ODict [("/Fields", OArr [demo_widget])])]);
        ((2, 0), ODict [("/Type", OName "/Pages"); ("/Kids", OArr [ORef (3, 0)]);
                        ("/Count", OInt 1)]);
        ((3, 0), ODict [("/Type", OName "/Page"); ("/Parent", ORef (2, 0))])])
    (1, 0)
    [(3, 0)].

(** A document with a group field "G" (object 5) over two children "A" and
    "B" (objects 6 and 7), followed by a plain field "B" (object 8); two
    pages, the children on the first. *)
Definition demo_pdf_kids : Pdf :=
  mkPdf
    (list_to_map
       [((1, 0), ODict [("/Type", OName "/Catalog"); ("/Pages", ORef (2, 0));
                        ("/AcroForm",
                         ODict [("/Fields", OArr [ORef (5, 0); ORef (8, 0)])])]);
        ((2, 0), ODict [("/Type", OName "/Pages");
                        ("/Kids", OArr [ORef (3, 0); ORef (4, 0)]);
                        ("/Count", OInt 2)]);
        ((3, 0), ODict [("/Type", OName "/Page");
                        ("/Annots", OArr [ORef (6, 0); ORef (7, 0)])]);
        ((4, 0), ODict [("/Type", OName "/Page")]);
        ((5, 0), ODict [("/T", OStr "G");
                        ("/Kids", OArr [ORef (6, 0); ORef (7, 0)])]);
        ((6, 0), ODict [("/Subtype", OName "/Widget"); ("/T", OStr "A");
                        ("/Parent", ORef (5, 0)); ("/P", ORef (3, 0));
                        ("/Rect", OArr [OInt 0; OInt 0; OReal (100, 0%nat);
                                        OInt 20])]);
        ((7, 0), ODict [("/Subtype", OName "/Widget"); ("/T", OStr "B");
                        ("/Parent", ORef (5, 0)); ("/P", OArr [])]);
        ((8, 0), ODict [("/Subtype", OName "/Widget"); ("/T", OStr "B")])])
    (1, 0)
    [(3, 0); (4, 0)].

Definition demo_open_kids (bytes : list byte) : Exc Pdf := Ok demo_pdf_kids.

Definition demo_fitz_kids (bytes : list byte) : Exc (list Z) := Ok [3; 4].

(** A world whose current buffer does not open, with one buffer in the
    history. *)
Definition demo_world_unreadable : World :=
  mkWorld (Some []) [demo_saved] demo_gui.

(** The handle [load_widget] gives on the field of [demo_pdf_direct]. *)
Definition demo_direct_widget : Loc :=
  mkLoc (1, 0) [SKey "/AcroForm"; SKey "/Fields"; SIdx 0].

(* ===================================================================== *)
(** ** The remaining handlers: files and field inspection *)
(* ===================================================================== *)

(** The file system as the program uses it: [open(path, "rb").read()] and
    [open(path, "wb").write(bytes)].  A write that raises has still left a
    file system behind, so [write_file] always returns one, with the
    exception text if it raised.  [basename] is [os.path.basename]. *)
Variable Disk : Type.
Variable read_file : Disk -> string -> Exc (list byte).
Variable write_file : Disk -> string -> list byte -> Disk * option string.
Variable basename : string -> string.

Definition newline : string := String (ascii_of_nat 10) EmptyString.

(** [path] is what [askopenfilename] returned, empty on Cancel;
    [pdf_path_var] is the text of the path field, which the handler returns
    beside the world. *)
Definition choose_pdf (path : string) (disk : Disk) (pdf_path_var : string)
    (w : World) : World * string * Completion :=
  if negb (Py.truthy path) then (w, pdf_path_var, Normal)
  else
    match read_file disk path with
    | Raise e =>
        (with_gui
           (messagebox
              (ShowError "Ошибка" ("Не удалось открыть файл:" +:+ newline +:+ e))
              (gui w)) w,
         pdf_path_var, Normal)
    | Ok bytes =>
        let r := refresh_fields
                   (mkWorld (Some bytes) []
                      (log ("📄 Открыт файл: " +:+ path) (gui w))) in
        (fst r, path, snd r)
    end.

(** The file name the "Save As" dialog proposes. *)
Definition initialfile (pdf_path_var : string) : string :=
  let default_name :=
    if Py.truthy pdf_path_var then pdf_path_var else "output.pdf" in
  if Py.truthy default_name then basename default_name else "output.pdf".

(** [asksaveasfilename] gives the operator's answer to the dialog that
    proposes [initialfile]; the empty string is Cancel. *)
Definition action_save_as (asksaveasfilename : string -> string)
    (disk : Disk) (pdf_path_var : string) (w : World)
  : World * Disk * Completion :=
  match current_pdf_bytes w with
  | None =>
      (with_gui
         (messagebox (ShowError "Ошибка" "Нет загруженного PDF для сохранения.")
            (gui w)) w,
       disk, Normal)
  | Some bytes =>
      let path := asksaveasfilename (initialfile pdf_path_var) in
      if negb (Py.truthy path) then (w, disk, Normal)
      else
        match write_file disk path bytes with
        | (disk', None) =>
            (with_gui (log ("💾 Файл сохранён: " +:+ path) (gui w)) w,
             disk', Normal)
        | (disk', Some e) =>
            (with_gui
               (messagebox
                  (ShowError "Ошибка"
                     ("Не удалось сохранить файл:" +:+ newline +:+ e))
                  (gui w)) w,
             disk', Normal)
        end
  end.

(** A widget as PyMuPDF lists it on a page: its field name, its object
    number, and what [doc.xref_object(w.xref)] gives for it. *)
Record FitzWidget : Type := mkFitzWidget {
  field_name : string;
  xref : Z;
  xref_object : Exc string
}.

(** [fitz.open] as the inspection handlers read it: for every page, in
    order, the list [page.widgets() or []]. *)
Variable fitz_widgets : list byte -> Exc (list (list FitzWidget)).

(** The inner loop of [show_field_info] on the page with index
    [page_number]: the window, whether a block was logged ([found], after
    which the loop breaks), and how the loop ended. *)
Fixpoint show_in_page (name : string) (page_number : nat)
    (widgets : list FitzWidget) (g : Gui) : Gui * bool * Completion :=
  match widgets with
  | [] => (g, false, Normal)
  | w :: rest =>
      if String.eqb (field_name w) name then
        let g := log "──────── FIELD INFO ────────" g in
        let g := log ("Name: " +:+ name) g in
        let g := log ("Page: " +:+ pretty (Z.of_nat page_number + 1)) g in
        let g := log ("XREF: " +:+ pretty (xref w)) g in
        match xref_object w with
        | Raise e => (g, true, Uncaught e)
        | Ok text =>
            (log "────────────────────────────" (log text g), true, Normal)
        end
      else show_in_page name page_number rest g
  end.

(** The outer loop, from the page with index [page_number] on. *)
Fixpoint show_in_doc (name : string) (page_number : nat)
    (doc : list (list FitzWidget)) (found : bool) (g : Gui)
  : Gui * bool * Completion :=
  match doc with
  | [] => (g, found, Normal)
  | page :: rest =>
      match show_in_page name page_number page g with
      | (g, f, Normal) =>
          show_in_doc name (S page_number) rest (found || f) g
      | (g, f, Uncaught e) => (g, found || f, Uncaught e)
      end
  end.

Definition show_field_info (sel : option string) (w : World)
  : World * Completion :=
  on_selected sel w (fun name w =>
    match current_pdf_bytes w with
    | None =>
        (with_gui (messagebox (ShowError "Ошибка" "Сначала открой PDF.") (gui w)) w,
         Normal)
    | Some bytes =>
        match fitz_widgets bytes with
        | Raise e => (w, Uncaught e)
        | Ok doc =>
            match show_in_doc name 0 doc false (gui w) with
            | (g, _, Uncaught e) => (with_gui g w, Uncaught e)
            | (g, true, Normal) => (with_gui g w, Normal)
            | (g, false, Normal) =>
                (with_gui
                   (messagebox
                      (ShowError "Ошибка" "Поле не найдено в PyMuPDF (виджеты).")
                      g) w,
                 Normal)
            end
        end
    end).

(** The block [debug_fields] logs for one widget. *)
Definition debug_widget (page_number : nat) (w : FitzWidget) (g : Gui) : Gui :=
  let g := log "──────── FIELD ────────" g in
  let g := log ("Name: " +:+ field_name w) g in
  let g := log ("Page: " +:+ pretty (Z.of_nat page_number + 1)) g in
  let g := log ("XREF: " +:+ pretty (xref w)) g in
  let g := match xref_object w with
           | Ok obj_text => log obj_text g
           | Raise _ => log "(cannot read xref object)" g
           end in
  log "────────────────────────" g.

Fixpoint debug_in_doc (page_number : nat) (doc : list (list FitzWidget))
    (found_any : bool) (g : Gui) : Gui * bool :=
  match doc with
  | [] => (g, found_any)
  | page :: rest =>
      debug_in_doc (S page_number) rest
        (found_any || negb (bool_decide (page = [])))
        (foldl (fun g w => debug_widget page_number w g) g page)
  end.

Definition debug_fields (w : World) : World * Completion :=
  match current_pdf_bytes w with
  | None =>
      (with_gui (messagebox (ShowError "Ошибка" "Сначала открой PDF.") (gui w)) w,
       Normal)
  | Some bytes =>
      match fitz_widgets bytes with
      | Raise e =>
          (with_gui (log ("❌ PyMuPDF error: " +:+ e) (gui w)) w, Normal)
      | Ok doc =>
          let g := log "════════ ALL FIELDS INFO ════════" (gui w) in
          let '(g, found_any) := debug_in_doc 0 doc false g in
          (with_gui
             (if found_any then g
              else log "⚠ No fields detected in the document." g) w,
           Normal)
      end
  end.

(** [action_clear_log]: the pane is emptied, then one line is logged. *)
Definition action_clear_log (w : World) : World :=
  with_gui
    (log "🧹 Log cleared." (mkGui [] (tree (gui w)) (boxes (gui w)))) w.

(** The pages of a PyMuPDF document that carry a widget called [name]. *)
Definition pages_with (name : string) (doc : list (list FitzWidget))
  : list (list FitzWidget) :=
  List.filter (existsb (fun w => String.eqb (field_name w) name)) doc.

(** [doc.xref_object] answers for the widget. *)
Definition readable (w : FitzWidget) : bool :=
  match xref_object w with Ok _ => true | Raise _ => false end.

(** A file system for running the file handlers: a table of files that can
    always be written. *)
Definition demo_read (disk : gmap string (list byte)) (path : string)
  : Exc (list byte) :=
  match disk !! path with
  | Some bytes => Ok bytes
  | None => Raise "No such file or directory"
  end.

Definition demo_write (disk : gmap string (list byte)) (path : string)
    (bytes : list byte) : gmap string (list byte) * option string :=
  (<[path := bytes]> disk, None).

Definition demo_disk : gmap string (list byte) :=
  {["in.pdf" := ["%"%byte; "1"%byte]]}.

Definition demo_basename (path : string) : string := path.

(** What PyMuPDF lists for a document with "B" on both pages and "A" on
    the first. *)
Definition demo_widgets (bytes : list byte) : Exc (list (list FitzWidget)) :=
  Ok [[mkFitzWidget "A" 6 (Ok "<</T(A)>>"); mkFitzWidget "B" 7 (Ok "<</T(B)>>");
       mkFitzWidget "B" 9 (Ok "<</T(B)>>")];
      [mkFitzWidget "B" 8 (Ok "<</T(B)>>")];
      []].

(** The window [g'] is [g] with [n] more lines in the log and nothing else
    changed. *)
Definition logged (n : nat) (g g' : Gui) : Prop :=
  tree g' = tree g /\ boxes g' = boxes g /\
  exists lines, log_box g' = log_box g ++ lines /\ length lines = n.

(** Page [pg'] is a dictionary whose annotation list, when it has one, is
    an array that page [pg] does not use as its own list. *)
Definition own_list (pdf : Pdf) (pg pg' : objgen) : Prop :=
  is_dict pdf (ind pg') = true /\
  forall a', attr pdf (ind pg') "/Annots" = Some a' ->
    is_array pdf a' = true /\ attr pdf (ind pg) "/Annots" <> Some a'.

(* ===================================================================== *)
(** ** The document store under [apply_change] and [action_undo] *)
(* ===================================================================== *)

Lemma refresh_fields_store (w : World) :
  store (fst (refresh_fields w)) = store w.
Proof.
  destruct w as [cur st g]. unfold refresh_fields, store; simpl.
  destruct cur as [bytes|]; [|reflexivity].
  destruct (fitz_open bytes); [|reflexivity].
  destruct (pike_open bytes) as [pdf|]; [|reflexivity].
  destruct (report _ pdf); reflexivity.
Qed.

Lemma apply_change_failure (change_func : Change) (action_name : string)
    (w : World) (prev_bytes : list byte) (e : string) (g : Gui) :
  current_pdf_bytes w = Some prev_bytes ->
  Fails change_func prev_bytes (gui w) e g ->
  apply_change change_func action_name w =
    (with_gui (log ("❌ ERROR (" +:+ action_name +:+ "): " +:+ e) g) w, Normal).
Proof.
  intros Hcur Hfail. unfold apply_change. rewrite Hcur.
  destruct Hfail as [e Hopen | pdf e g Hopen Hch | pdf pdf' e g Hopen Hch Hsave];
    rewrite Hopen; try rewrite Hch; try rewrite Hsave; reflexivity.
Qed.

Lemma apply_change_success (change_func : Change) (action_name : string)
    (w : World) (prev_bytes new_bytes : list byte) :
  current_pdf_bytes w = Some prev_bytes ->
  Succeeds change_func prev_bytes (gui w) new_bytes ->
  store (fst (apply_change change_func action_name w)) =
    (Some new_bytes, undo_stack w ++ [prev_bytes]).
Proof.
  intros Hcur (pdf & pdf' & g & Hopen & Hch & Hsave).
  unfold apply_change. rewrite Hcur, Hopen, Hch, Hsave.
  rewrite refresh_fields_store. reflexivity.
Qed.

Lemma action_undo_pop (w : World) (below : list (list byte)) (top : list byte) :
  undo_stack w = below ++ [top] ->
  store (fst (action_undo w)) = (Some top, below).
Proof.
  intros Hst. unfold action_undo. rewrite Hst, reverse_snoc.
  rewrite refresh_fields_store. unfold store; simpl.
  rewrite reverse_involutive. reflexivity.
Qed.

(** C1.  Whatever the mutation procedure and the action label: when opening
    the current buffer raises, or the procedure raises, or saving the mutated
    document raises, [apply_change] returns normally with one error line
    added to the log, the current buffer is still the one that was current
    and the history stack is the one it was. *)
Theorem apply_change_failure_leaves_store (change_func : Change)
    (action_name : string) (w : World) (prev_bytes : list byte)
    (e : string) (g : Gui) :
  current_pdf_bytes w = Some prev_bytes ->
  Fails change_func prev_bytes (gui w) e g ->
  let r := apply_change change_func action_name w in
  snd r = Normal /\
  log_box (gui (fst r)) =
    log_box g ++ ["❌ ERROR (" +:+ action_name +:+ "): " +:+ e] /\
  current_pdf_bytes (fst r) = Some prev_bytes /\
  undo_stack (fst r) = undo_stack w /\
  store (fst r) = store w.
Proof.
  intros Hcur Hfail r. subst r.
  rewrite (apply_change_failure _ _ _ _ _ _ Hcur Hfail).
  unfold store; simpl. rewrite Hcur. repeat split; reflexivity.
Qed.

(** C3.  After a mutation that went through, the buffer that was current is
    on top of the history and the new bytes are current; an undo right after
    it makes the old buffer current again, equal byte for byte, and leaves
    the history stack as it was before the mutation, so of the same
    length. *)
Theorem apply_change_then_undo (change_func : Change) (action_name : string)
    (w : World) (prev_bytes new_bytes : list byte) :
  current_pdf_bytes w = Some prev_bytes ->
  Succeeds change_func prev_bytes (gui w) new_bytes ->
  let w1 := fst (apply_change change_func action_name w) in
  let w2 := fst (action_undo w1) in
  current_pdf_bytes w1 = Some new_bytes /\
  undo_stack w1 = undo_stack w ++ [prev_bytes] /\
  current_pdf_bytes w2 = Some prev_bytes /\
  undo_stack w2 = undo_stack w /\
  length (undo_stack w2) = length (undo_stack w).
Proof.
  intros Hcur Hok w1 w2.
  pose proof (apply_change_success change_func action_name w _ _ Hcur Hok) as H1.
  fold w1 in H1. unfold store in H1. injection H1 as Hc1 Hs1.
  pose proof (action_undo_pop w1 _ _ Hs1) as H2.
  fold w2 in H2. unfold store in H2. injection H2 as Hc2 Hs2.
  rewrite Hs2. repeat split; assumption.
Qed.

(** C10.  With an empty history stack [action_undo] shows its information
    box and returns normally; the current buffer is the one it was, the
    stack is still empty, and nothing is written to the log. *)
Theorem action_undo_empty_history (w : World) :
  undo_stack w = [] ->
  let r := action_undo w in
  snd r = Normal /\
  current_pdf_bytes (fst r) = current_pdf_bytes w /\
  undo_stack (fst r) = [] /\
  boxes (gui (fst r)) =
    boxes (gui w) ++ [ShowInfo "Undo" "Нет действий для отмены."] /\
  log_box (gui (fst r)) = log_box (gui w) /\
  tree (gui (fst r)) = tree (gui w).
Proof.
  intros Hst r. subst r. unfold action_undo. rewrite Hst. simpl.
  rewrite Hst. repeat split; reflexivity.
Qed.

(* ===================================================================== *)
(** ** Reading and writing through handles *)
(* ===================================================================== *)

Lemma bind_Ok_inv {A B} (m : Exc A) (f : A -> Exc B) (b : B) :
  m ≫= f = Ok b -> exists a, m = Ok a /\ f a = Ok b.
Proof. destruct m as [a|e]; simpl; [eauto | discriminate]. Qed.

Lemma dict_get_set_eq k v d : dict_get k (dict_set k v d) = Some v.
Proof.
  induction d as [|[k' v'] d IH]; simpl.
  - rewrite String.eqb_refl. reflexivity.
  - destruct (String.eqb k' k) eqn:E; simpl.
    + rewrite String.eqb_refl. reflexivity.
    + rewrite E. exact IH.
Qed.

Lemma dict_get_set_ne k k' v d :
  k <> k' -> dict_get k' (dict_set k v d) = dict_get k' d.
Proof.
  intros Hne. induction d as [|[k0 v0] d IH]; simpl.
  - destruct (String.eqb_spec k k'); [contradiction | reflexivity].
  - destruct (String.eqb_spec k0 k) as [->|Hk]; simpl.
    + destruct (String.eqb_spec k k'); [contradiction | reflexivity].
    + rewrite IH. reflexivity.
Qed.

Lemma dict_get_del_eq k d : dict_get k (dict_del k d) = None.
Proof.
  induction d as [|[k' v'] d IH]; simpl; [reflexivity|].
  destruct (String.eqb k' k) eqn:E; simpl; [exact IH|].
  rewrite E. exact IH.
Qed.

Lemma obj_at_upd f o p o' :
  obj_at o p = Some o' -> obj_at (obj_upd f o p) p = Some (f o').
Proof.
  revert o. induction p as [|[k|i] p IH]; intros o; simpl.
  - intros [= ->]. reflexivity.
  - destruct o; try discriminate.
    destruct (dict_get k d) as [o1|] eqn:E; simpl; [|discriminate].
    intros H. rewrite dict_get_set_eq. simpl. apply IH, H.
  - destruct o; try discriminate.
    destruct (l !! i) as [o1|] eqn:E; simpl; [|discriminate].
    intros H. rewrite list_lookup_insert_eq by (eapply lookup_lt_Some, E).
    simpl. apply IH, H.
Qed.

Lemma lookup_loc_write_same pdf h f o :
  lookup_loc pdf h = Some o -> lookup_loc (write pdf h f) h = Some (f o).
Proof.
  unfold lookup_loc, write.
  destruct (objects pdf !! base h) as [o0|] eqn:E; simpl; [|discriminate].
  intros H. rewrite lookup_insert_eq. simpl. apply obj_at_upd, H.
Qed.

Lemma lookup_loc_write_other pdf h f h' :
  base h' <> base h -> lookup_loc (write pdf h f) h' = lookup_loc pdf h'.
Proof.
  intros Hne. unfold lookup_loc, write.
  destruct (objects pdf !! base h); simpl; [|reflexivity].
  rewrite lookup_insert_ne by congruence. reflexivity.
Qed.

Lemma read_dict_lookup pdf h kv :
  read pdf h = ODict kv -> lookup_loc pdf h = Some (ODict kv).
Proof.
  unfold read. destruct (lookup_loc pdf h); simpl; [congruence | discriminate].
Qed.

Lemma read_write_dict pdf h kv o :
  read pdf h = ODict kv -> read (write pdf h (fun _ => o)) h = o.
Proof.
  intros H. unfold read.
  rewrite (lookup_loc_write_same _ _ _ _ (read_dict_lookup _ _ _ H)).
  reflexivity.
Qed.

Lemma write_pages pdf h f : pages (write pdf h f) = pages pdf.
Proof. unfold write. destruct (objects pdf !! base h); reflexivity. Qed.

(** [obj[key] = v] goes through exactly on dictionaries, and the key then
    reads as [v]. *)
Lemma setitem_dict pdf h k v kv :
  read pdf h = ODict kv ->
  exists pdf', setitem pdf h k v = Ok pdf' /\
               read pdf' h = ODict (dict_set k v kv) /\
               pages pdf' = pages pdf.
Proof.
  intros H. unfold setitem. rewrite H. eexists. split; [reflexivity|].
  split; [eapply read_write_dict, H | apply write_pages].
Qed.

Lemma field_get_setitem pdf h k v pdf' :
  setitem pdf h k v = Ok pdf' -> field_get pdf' h k = Some v.
Proof.
  unfold setitem, field_get. destruct (read pdf h) eqn:E; try discriminate.
  intros [= <-]. rewrite (read_write_dict _ _ _ _ E). apply dict_get_set_eq.
Qed.

(** *** What [load_widget] hands back *)

Lemma get_Ok_dict pdf h k t :
  get pdf h k = Ok t ->
  exists kv, read pdf h = ODict kv /\ t = member h (SKey k) <$> dict_get k kv.
Proof.
  unfold get. destruct (read pdf h); try discriminate.
  intros [= <-]. eauto.
Qed.

Lemma scan_kids_located pdf field_name kids widget :
  scan_kids pdf field_name kids = Ok (Some widget) ->
  located pdf field_name widget.
Proof.
  induction kids as [|kid rest IH]; simpl; [discriminate|].
  intros H. apply bind_Ok_inv in H as (t & Ht & H).
  destruct (name_is pdf t field_name) eqn:E; [|exact (IH H)].
  injection H as <-. apply get_Ok_dict in Ht as (kv & Hr & ->).
  exists kv. split; assumption.
Qed.

Lemma scan_fields_located pdf field_name fields widget :
  scan_fields pdf field_name fields = Ok (Some widget) ->
  located pdf field_name widget.
Proof.
  induction fields as [|field rest IH]; simpl; [discriminate|].
  intros H. apply bind_Ok_inv in H as (has_kids & _ & H).
  apply bind_Ok_inv in H as (found & Hfound & H).
  destruct found as [kid_obj|].
  - injection H as <-. destruct has_kids; [|discriminate].
    apply bind_Ok_inv in Hfound as (kids & _ & Hfound).
    apply bind_Ok_inv in Hfound as (kid_list & _ & Hfound).
    eapply scan_kids_located, Hfound.
  - apply bind_Ok_inv in H as (t & Ht & H).
    destruct (name_is pdf t field_name) eqn:E; [|exact (IH H)].
    injection H as <-. apply get_Ok_dict in Ht as (kv & Hr & ->).
    exists kv. split; assumption.
Qed.

Lemma load_widget_located pdf field_name widget :
  load_widget pdf field_name = Ok (Some widget) ->
  located pdf field_name widget.
Proof.
  unfold load_widget. intros H.
  apply bind_Ok_inv in H as (has_form & _ & H).
  destruct has_form; simpl in H; [|discriminate].
  apply bind_Ok_inv in H as (form & _ & H).
  apply bind_Ok_inv in H as (has_fields & _ & H).
  destruct has_fields; simpl in H; [|discriminate].
  apply bind_Ok_inv in H as (fields & _ & H).
  apply bind_Ok_inv in H as (field_list & _ & H).
  eapply scan_fields_located, H.
Qed.

Lemma located_dict pdf field_name widget :
  located pdf field_name widget -> exists kv, read pdf widget = ODict kv.
Proof. intros (kv & H & _). eauto. Qed.

(* ===================================================================== *)
(** ** The mutation closures *)
(* ===================================================================== *)

Lemma has_key_field_get pdf widget field_name k :
  located pdf field_name widget ->
  has_key pdf widget k = Ok (bool_decide (is_Some (field_get pdf widget k))).
Proof.
  intros (kv & Hr & _). unfold has_key, field_get. rewrite Hr. reflexivity.
Qed.

Lemma change_delete_rect_key_absent name pdf widget g :
  load_widget pdf name = Ok (Some widget) ->
  field_get pdf widget "/Rect" = None ->
  change_delete_rect_key name pdf g =
    Returned false pdf
      (log ("ℹ У поля '" +:+ name +:+ "' нет ключа /Rect (удалять нечего).") g).
Proof.
  intros Hload Habs. unfold change_delete_rect_key, with_widget.
  rewrite Hload.
  rewrite (has_key_field_get _ _ _ _ (load_widget_located _ _ _ Hload)), Habs.
  reflexivity.
Qed.

Lemma change_delete_p_absent name pdf widget g :
  load_widget pdf name = Ok (Some widget) ->
  field_get pdf widget "/P" = None ->
  change_delete_p name pdf g =
    Returned true pdf
      (log ("ℹ У поля '" +:+ name +:+ "' нет /P — нечего удалять.") g).
Proof.
  intros Hload Habs. unfold change_delete_p, with_widget.
  rewrite Hload.
  rewrite (has_key_field_get _ _ _ _ (load_widget_located _ _ _ Hload)), Habs.
  reflexivity.
Qed.

(** C7.  On a field without "/Rect" the closure of "Delete rectangle key"
    returns false on the untouched document, and the handler returns with
    the current buffer and the history stack as they were. *)
Theorem delete_rect_key_absent_noop (name : string) (w : World)
    (bytes : list byte) (pdf : Pdf) (widget : Loc) :
  current_pdf_bytes w = Some bytes ->
  pike_open bytes = Ok pdf ->
  load_widget pdf name = Ok (Some widget) ->
  field_get pdf widget "/Rect" = None ->
  (exists g', change_delete_rect_key name pdf (gui w) = Returned false pdf g') /\
  let r := action_delete_rect_key (Some name) w in
  snd r = Normal /\
  current_pdf_bytes (fst r) = Some bytes /\
  undo_stack (fst r) = undo_stack w /\
  store (fst r) = store w.
Proof.
  intros Hcur Hopen Hload Habs.
  pose proof (change_delete_rect_key_absent name pdf widget (gui w) Hload Habs)
    as Hch.
  split; [eauto|].
  unfold action_delete_rect_key, on_selected, store; simpl.
  destruct w as [cur st g]; simpl in *. subst cur.
  destruct (Py.truthy name); simpl; [|auto].
  unfold apply_change; simpl. rewrite Hopen, Hch. simpl. auto.
Qed.

(** What the code does where C2 asks for a no-op: on a field without "/P"
    the closure of "Delete page link" returns true, so [apply_change] goes on
    to save the unchanged document, pushes the old buffer on the history
    stack and replaces the current buffer. *)
Theorem delete_p_absent_reports_change (name : string) (w : World)
    (bytes new_bytes : list byte) (pdf : Pdf) (widget : Loc) :
  current_pdf_bytes w = Some bytes ->
  pike_open bytes = Ok pdf ->
  load_widget pdf name = Ok (Some widget) ->
  field_get pdf widget "/P" = None ->
  pike_save pdf = Ok new_bytes ->
  (exists g', change_delete_p name pdf (gui w) = Returned true pdf g') /\
  store (fst (apply_change (change_delete_p name) "Delete /P" w)) =
    (Some new_bytes, undo_stack w ++ [bytes]).
Proof.
  intros Hcur Hopen Hload Habs Hsave.
  pose proof (change_delete_p_absent name pdf widget (gui w) Hload Habs) as Hch.
  split; [eauto|].
  apply apply_change_success; [assumption|].
  exists pdf, pdf. eexists. repeat split; eassumption.
Qed.

(** C8.  Whatever the field's "/P" was, absent or present, the closure that
    "Set page link" runs on empty input returns true and leaves "/P"
    present with the empty array as its value; the handler runs that closure
    whenever the answer is empty once stripped. *)
Theorem set_p_empty_present_but_empty (name : string) (pdf : Pdf)
    (widget : Loc) (g : Gui) :
  load_widget pdf name = Ok (Some widget) ->
  (exists pdf' g',
     change_set_p_empty name pdf g = Returned true pdf' g' /\
     field_get pdf' widget "/P" = Some (OArr []) /\
     field_get pdf' widget "/P" <> None) /\
  (forall sel page_str w,
     Py.strip page_str = "" ->
     action_set_p sel (Some page_str) w =
     on_selected sel w (fun name =>
       apply_change (change_set_p_empty name) "Set empty /P")).
Proof.
  intros Hload. split.
  - destruct (located_dict _ _ _ (load_widget_located _ _ _ Hload)) as [kv Hr].
    destruct (setitem_dict pdf widget "/P" (OArr []) kv Hr)
      as (pdf' & Hset & _ & _).
    exists pdf'. eexists. unfold change_set_p_empty, with_widget.
    rewrite Hload, Hset. split; [reflexivity|].
    rewrite (field_get_setitem _ _ _ _ _ Hset). split; [reflexivity|discriminate].
  - intros sel page_str w Hs. unfold action_set_p. rewrite Hs. reflexivity.
Qed.

(* ===================================================================== *)
(** ** The field locator *)
(* ===================================================================== *)

Lemma is_dict_read pdf h : is_dict pdf h = true -> exists kv, read pdf h = ODict kv.
Proof. unfold is_dict. destruct (read pdf h); try discriminate. eauto. Qed.

Lemma get_dict pdf h k :
  is_dict pdf h = true -> get pdf h k = Ok (attr pdf h k).
Proof.
  intros H. destruct (is_dict_read _ _ H) as [kv Hr].
  unfold get, attr, field_get. rewrite Hr. reflexivity.
Qed.

Lemma has_key_dict pdf h k :
  is_dict pdf h = true ->
  has_key pdf h k = Ok (bool_decide (is_Some (attr pdf h k))).
Proof.
  intros H. destruct (is_dict_read _ _ H) as [kv Hr].
  unfold has_key, attr, field_get. rewrite Hr.
  destruct (dict_get k kv); reflexivity.
Qed.

Lemma iterate_array pdf h :
  is_array pdf h = true -> iterate pdf h = Ok (members pdf h).
Proof.
  unfold is_array, iterate, members. destruct (read pdf h); try discriminate.
  reflexivity.
Qed.

Lemma scan_kids_find pdf field_name kids :
  forallb (is_dict pdf) (resolve <$> kids) = true ->
  scan_kids pdf field_name kids =
    Ok (List.find (named pdf field_name) (resolve <$> kids)).
Proof.
  induction kids as [|kid rest IH]; simpl; [reflexivity|].
  intros [Hd Hrest]%andb_prop. rewrite (get_dict _ _ _ Hd). simpl.
  fold (named pdf field_name (resolve kid)).
  destruct (named pdf field_name (resolve kid)); [reflexivity|].
  apply IH, Hrest.
Qed.

Lemma scan_fields_locate pdf field_name fields :
  forallb (entry_ok pdf) (resolve <$> fields) = true ->
  scan_fields pdf field_name fields =
    Ok (locate pdf field_name (resolve <$> fields)).
Proof.
  unfold locate.
  induction fields as [|field rest IH]; simpl; [reflexivity|].
  intros [Hok Hrest]%andb_prop.
  unfold entry_ok in Hok.
  apply andb_prop in Hok as [[Hd Harr]%andb_prop Hkids].
  rewrite (has_key_dict _ _ _ Hd). simpl.
  unfold entry_match at 1. unfold kids_of in Hkids |- *.
  unfold getitem. rewrite !(get_dict _ _ _ Hd).
  revert Harr Hkids.
  destruct (attr pdf (resolve field) "/Kids") as [kids|] eqn:Ek; simpl;
    intros Harr Hkids.
  - rewrite (iterate_array _ _ Harr). simpl.
    rewrite (scan_kids_find _ _ _ Hkids). simpl.
    destruct (List.find _ _) as [kid|]; simpl; [reflexivity|].
    fold (named pdf field_name (resolve field)).
    destruct (named pdf field_name (resolve field)); simpl; [reflexivity|].
    apply IH, Hrest.
  - fold (named pdf field_name (resolve field)).
    destruct (named pdf field_name (resolve field)); simpl; [reflexivity|].
    apply IH, Hrest.
Qed.

Lemma locate_None pdf field_name entries :
  locate pdf field_name entries = None <->
  Forall (fun entry => named pdf field_name entry = false /\
                       Forall (fun kid => named pdf field_name kid = false)
                              (kids_of pdf entry)) entries.
Proof.
  unfold locate. induction entries as [|entry rest IH]; simpl.
  - split; [constructor | reflexivity].
  - unfold entry_match at 1.
    destruct (List.find _ (kids_of pdf entry)) as [kid|] eqn:Ef; simpl.
    + split; [discriminate|]. intros H. inversion H as [|? ? [_ Hk] _]; subst.
      apply List.find_some in Ef as [Hin Hn].
      rewrite Forall_forall in Hk. apply list_elem_of_In in Hin.
      rewrite (Hk _ Hin) in Hn. discriminate.
    + destruct (named pdf field_name entry) eqn:En; simpl.
      * split; [discriminate|]. intros H. inversion H as [|? ? [Hn _] _].
        congruence.
      * rewrite IH. split.
        -- intros H. constructor; [|exact H]. split; [exact En|].
           rewrite Forall_forall. intros kid Hin%list_elem_of_In.
           exact (List.find_none _ _ Ef _ Hin).
        -- intros H. inversion H; assumption.
Qed.


(* ===================================================================== *)
(** ** The field reporter *)
(* ===================================================================== *)

Lemma mapped_page_index_find xs t k :
  mapped_page_index xs t k =
    (fun p : nat * Z => (k + fst p)%nat) <$> list_find (fun x => x = t) xs.
Proof.
  revert k. induction xs as [|x xs IH]; intros k; simpl; [reflexivity|].
  destruct (Z.eqb_spec x t) as [->|Hne].
  - rewrite decide_True by reflexivity. simpl. f_equal. lia.
  - rewrite decide_False by assumption. rewrite IH.
    destruct (list_find _ xs) as [[i y]|]; simpl; [|reflexivity].
    f_equal. lia.
Qed.

Lemma page_num_linked_page doc_fitz p_val :
  page_num doc_fitz p_val = linked_page doc_fitz p_val.
Proof.
  unfold page_num, linked_page. destruct p_val as [p|]; [|reflexivity].
  destruct (objgen_of p) as [[n g]|]; [|reflexivity].
  rewrite mapped_page_index_find. simpl.
  destruct (list_find _ doc_fitz) as [[i y]|]; reflexivity.
Qed.

Lemma float_str_number_of pdf x :
  float_str pdf x = float_repr <$> number_of pdf x.
Proof. unfold float_str, number_of. destruct (read pdf x); reflexivity. Qed.

Lemma mapM_float_str pdf elems :
  mapM (float_str pdf) elems = fmap float_repr <$> mapM (number_of pdf) elems.
Proof.
  induction elems as [|x elems IH]; simpl; [reflexivity|].
  rewrite float_str_number_of, IH.
  destruct (number_of pdf x); simpl; [|reflexivity].
  destruct (mapM (number_of pdf) elems); reflexivity.
Qed.

Lemma rect_str_rect_text pdf rect : rect_str pdf rect = rect_text pdf rect.
Proof.
  unfold rect_str, rect_text, numbers, iterate, members.
  destruct rect as [h|]; [|reflexivity].
  destruct (read pdf h) as [| | | | | |l|[|kv d]|]; try reflexivity.
  rewrite mapM_float_str.
  destruct (mapM (number_of pdf) _); reflexivity.
Qed.

Lemma widget_row_row_of doc_fitz pdf i annot :
  is_dict pdf annot = true ->
  widget_row doc_fitz pdf i annot = Ok (row_of doc_fitz pdf i annot).
Proof.
  intros Hd. unfold widget_row, row_of.
  rewrite !(get_dict _ _ _ Hd). simpl.
  rewrite page_num_linked_page, rect_str_rect_text. reflexivity.
Qed.

Lemma report_annots_rows doc_fitz pdf i annots rows :
  forallb (is_dict pdf) annots = true ->
  report_annots doc_fitz pdf i annots rows =
    Ok (rows ++ (row_of doc_fitz pdf i <$> List.filter (is_widget pdf) annots)).
Proof.
  revert rows. induction annots as [|annot rest IH]; intros rows; simpl.
  - intros _. rewrite app_nil_r. reflexivity.
  - intros [Hd Hrest]%andb_prop. rewrite (get_dict _ _ _ Hd). simpl.
    fold (is_widget pdf annot). destruct (is_widget pdf annot); simpl.
    + rewrite (widget_row_row_of _ _ _ _ Hd). simpl.
      rewrite (IH _ Hrest), <- app_assoc. reflexivity.
    + apply IH, Hrest.
Qed.

Lemma page_annots_annots_of pdf pg :
  page_ok pdf pg = true ->
  page_annots pdf pg = Ok (annots_of pdf pg) /\
  forallb (is_dict pdf) (annots_of pdf pg) = true.
Proof.
  unfold page_ok, page_annots, annots_of.
  intros [[Hd Harr]%andb_prop Hall]%andb_prop. split; [|exact Hall].
  rewrite (get_dict _ _ _ Hd). simpl.
  destruct (attr pdf (ind pg) "/Annots") as [annots|]; [|reflexivity].
  apply iterate_array, Harr.
Qed.

Lemma report_pages_rows doc_fitz pdf i pgs rows :
  forallb (page_ok pdf) pgs = true ->
  report_pages doc_fitz pdf i pgs rows =
    Ok (rows ++
        concat (imap (fun j pg =>
                        row_of doc_fitz pdf (i + j) <$> widgets_of pdf pg) pgs)).
Proof.
  revert i rows. induction pgs as [|pg rest IH]; intros i rows; simpl.
  - intros _. rewrite app_nil_r. reflexivity.
  - intros [Hpg Hrest]%andb_prop.
    destruct (page_annots_annots_of _ _ Hpg) as [Ha Hall].
    rewrite Ha. simpl. rewrite (report_annots_rows _ _ _ _ _ Hall). simpl.
    rewrite (IH _ _ Hrest), <- app_assoc. unfold widgets_of.
    rewrite Nat.add_0_r. do 4 f_equal.
    apply imap_ext. intros j pg' _. simpl.
    replace (S (i + j))%nat with (i + S j)%nat by lia. reflexivity.
Qed.

Lemma report_rows_of doc_fitz pdf :
  forallb (page_ok pdf) (pages pdf) = true ->
  report doc_fitz pdf = Ok (rows_of doc_fitz pdf).
Proof.
  intros H. unfold report, rows_of. rewrite (report_pages_rows _ _ _ _ _ H).
  reflexivity.
Qed.

Lemma length_rows_of doc_fitz pdf :
  length (rows_of doc_fitz pdf) =
    length (concat (widgets_of pdf <$> pages pdf)).
Proof.
  unfold rows_of. generalize (row_of doc_fitz pdf) as f.
  induction (pages pdf) as [|pg rest IH]; intros f; simpl; [reflexivity|].
  rewrite !length_app, length_fmap. f_equal. apply (IH (fun j => f (S j))).
Qed.

Lemma linked_page_invalid doc_fitz p og :
  objgen_of p = Some og ->
  fst og ∉ doc_fitz ->
  linked_page doc_fitz (Some p) = CText "(invalid)".
Proof.
  intros Hp Hnot. unfold linked_page. rewrite Hp.
  destruct (list_find _ doc_fitz) as [[i x]|] eqn:E; [|reflexivity].
  apply list_find_Some in E as (Hi & -> & _).
  exfalso. apply Hnot. eapply list_elem_of_lookup_2, Hi.
Qed.

Lemma linked_page_first doc_fitz p og i :
  objgen_of p = Some og ->
  doc_fitz !! i = Some (fst og) ->
  (forall j, (j < i)%nat -> doc_fitz !! j <> Some (fst og)) ->
  linked_page doc_fitz (Some p) = CNum (Z.of_nat i + 1).
Proof.
  intros Hp Hi Hfirst. unfold linked_page. rewrite Hp.
  destruct (list_find _ doc_fitz) as [[i' x]|] eqn:E.
  - apply list_find_Some in E as (Hi' & -> & Hmin).
    destruct (Nat.lt_trichotomy i' i) as [Hlt|[->|Hgt]]; [|reflexivity|].
    + exfalso. exact (Hfirst _ Hlt Hi').
    + exfalso. exact (Hmin _ _ Hi Hgt eq_refl).
  - rewrite list_find_None, Forall_forall in E.
    exfalso. eapply E; [eapply list_elem_of_lookup_2, Hi | reflexivity].
Qed.

(** *** Reading the members of a container *)

Lemma obj_at_app o p q :
  obj_at o (p ++ q) = obj_at o p ≫= fun o' => obj_at o' q.
Proof.
  revert o. induction p as [|[k|i] p IH]; intros o; simpl; [reflexivity| |].
  - destruct o; try reflexivity. destruct (dict_get k d); simpl; [apply IH|reflexivity].
  - destruct o; try reflexivity. destruct (l !! i); simpl; [apply IH|reflexivity].
Qed.

Lemma read_member pdf h s v :
  lookup_loc pdf h ≫= (fun o => obj_at o [s]) = Some v ->
  is_ORef v = false ->
  read pdf (member h s v) = v.
Proof.
  intros Hv Hnr. assert (member h s v = mkLoc (base h) (path h ++ [s])) as ->
    by (destruct v; try reflexivity; discriminate).
  unfold read, lookup_loc in *. simpl.
  destruct (objects pdf !! base h) as [o|]; simpl in *; [|discriminate].
  rewrite obj_at_app. destruct (obj_at o (path h)); simpl in *; [|discriminate].
  rewrite Hv. reflexivity.
Qed.

Lemma read_member_key pdf h kv k v :
  read pdf h = ODict kv -> dict_get k kv = Some v -> is_ORef v = false ->
  read pdf (member h (SKey k) v) = v.
Proof.
  intros Hr Hk Hnr. apply read_member; [|exact Hnr].
  rewrite (read_dict_lookup _ _ _ Hr). simpl. rewrite Hk. reflexivity.
Qed.

Lemma read_arr_lookup pdf h l :
  read pdf h = OArr l -> lookup_loc pdf h = Some (OArr l).
Proof.
  unfold read. destruct (lookup_loc pdf h); simpl; [congruence | discriminate].
Qed.

Lemma read_member_idx pdf h l i v :
  read pdf h = OArr l -> l !! i = Some v -> is_ORef v = false ->
  read pdf (member h (SIdx i) v) = v.
Proof.
  intros Hr Hi Hnr. apply read_member; [|exact Hnr].
  rewrite (read_arr_lookup _ _ _ Hr). simpl. rewrite Hi. reflexivity.
Qed.

Lemma numbers_reals pdf h ds :
  read pdf h = OArr (OReal <$> ds) -> numbers pdf h = Some ds.
Proof.
  intros Hr. unfold numbers, members. rewrite Hr.
  apply mapM_Some, Forall2_same_length_lookup_2.
  - rewrite length_imap, length_fmap. reflexivity.
  - intros i x d Hx Hd. rewrite list_lookup_imap, list_lookup_fmap, Hd in Hx.
    injection Hx as <-. unfold number_of.
    assert (read pdf (member h (SIdx i) (OReal d)) = OReal d) as Hm.
    { apply (read_member_idx pdf h _ i _ Hr); [|reflexivity].
      rewrite list_lookup_fmap, Hd. reflexivity. }
    cbn [member] in Hm |- *. rewrite Hm. reflexivity.
Qed.

Lemma attr_setitem pdf h k v pdf' :
  setitem pdf h k v = Ok pdf' ->
  attr pdf' h k = Some (member h (SKey k) v) /\
  (is_ORef v = false -> read pdf' (member h (SKey k) v) = v).
Proof.
  intros Hset. unfold attr. rewrite (field_get_setitem _ _ _ _ _ Hset).
  split; [reflexivity|]. intros Hnr.
  unfold setitem in Hset. destruct (read pdf h) eqn:E; try discriminate.
  injection Hset as <-.
  eapply read_member_key; [eapply read_write_dict, E | apply dict_get_set_eq | exact Hnr].
Qed.

Lemma change_set_rect_row name rect pdf widget g :
  load_widget pdf name = Ok (Some widget) ->
  exists pdf' g',
    change_set_rect name rect pdf g = Returned true pdf' g' /\
    forall doc_fitz i,
      col_rect (row_of doc_fitz pdf' i widget) = floats_repr rect.
Proof.
  intros Hload.
  destruct (located_dict _ _ _ (load_widget_located _ _ _ Hload)) as [kv Hr].
  destruct (setitem_dict pdf widget "/Rect" (OArr (OReal <$> rect)) kv Hr)
    as (pdf' & Hset & _ & _).
  exists pdf'. eexists. unfold change_set_rect, with_widget.
  rewrite Hload, Hset. split; [reflexivity|].
  intros doc_fitz i. unfold row_of; simpl.
  destruct (attr_setitem _ _ _ _ _ Hset) as [-> Hread]. unfold rect_text.
  rewrite (numbers_reals _ _ rect (Hread eq_refl)). reflexivity.
Qed.

Lemma refresh_fields_rows (w : World) (bytes : list byte) (doc_fitz : list Z)
    (pdf : Pdf) :
  current_pdf_bytes w = Some bytes ->
  fitz_open bytes = Ok doc_fitz ->
  pike_open bytes = Ok pdf ->
  forallb (page_ok pdf) (pages pdf) = true ->
  refresh_fields w =
    (with_gui
       (log ("✔ Найдено полей: " +:+ pretty (length (rows_of doc_fitz pdf)))
            (set_tree (rows_of doc_fitz pdf) (gui w))) w,
     Normal).
Proof.
  intros Hcur Hfitz Hopen Hok. destruct w as [cur st g]; simpl in *. subst cur.
  unfold refresh_fields; simpl.
  rewrite Hfitz, Hopen, (report_rows_of _ _ Hok). reflexivity.
Qed.


(* ===================================================================== *)
(** ** What a write leaves alone *)
(* ===================================================================== *)

Lemma member_handle_of h s v : member h s v = handle_of h s (elem_view v).
Proof. destruct v; reflexivity. Qed.

Lemma iterate_iterate_view pdf h :
  iterate pdf h = iterate_view h (iter_view (read pdf h)).
Proof.
  unfold iterate, iterate_view, iter_view.
  destruct (read pdf h) as [| | | | | |l|[|kv d]|]; try reflexivity.
  f_equal. rewrite imap_fmap. apply imap_ext. intros i v _. simpl.
  apply member_handle_of.
Qed.

Lemma page_annots_page_annots_view pdf pg :
  page_annots pdf pg = page_annots_view pdf pg.
Proof.
  unfold page_annots, page_annots_view, get, annots_view.
  destruct (read pdf (ind pg)) as [| | | | | | |d|] eqn:Hr; try reflexivity.
  simpl. destruct (dict_get "/Annots" d) as [v|] eqn:Hv; [|reflexivity].
  simpl. rewrite iterate_iterate_view.
  destruct (is_ORef v) eqn:Href.
  - destruct v; try discriminate. reflexivity.
  - rewrite (read_member_key _ _ _ _ _ Hr Hv Href).
    destruct v; try discriminate; reflexivity.
Qed.

Lemma obj_at_not_ref o p kv : obj_at o p = Some (ODict kv) -> elem_view o = None.
Proof.
  destruct o; try reflexivity. destruct p as [|[k|i] p]; discriminate.
Qed.

Lemma elem_view_upd o p kv kv' :
  obj_at o p = Some (ODict kv) ->
  elem_view (obj_upd (fun _ => ODict kv') o p) = None.
Proof.
  destruct p as [|[k|i] p]; simpl; [reflexivity| |].
  - destruct o; try discriminate. destruct (dict_get k d); [reflexivity|discriminate].
  - destruct o; try discriminate. destruct (l !! i); [reflexivity|discriminate].
Qed.

Lemma iter_view_upd o p kv kv' :
  obj_at o p = Some (ODict kv) -> kv <> [] -> kv' <> [] ->
  iter_view (obj_upd (fun _ => ODict kv') o p) = iter_view o.
Proof.
  intros Hat Hkv Hkv'. destruct p as [|[k|i] p]; simpl in *.
  - injection Hat as ->. destruct kv, kv'; try contradiction; reflexivity.
  - destruct o; try discriminate.
    destruct (dict_get k d) as [o1|] eqn:E; [|discriminate].
    destruct d as [|[k0 v0] d]; [discriminate|]. simpl.
    destruct (String.eqb k0 k); reflexivity.
  - destruct o; try discriminate.
    destruct (l !! i) as [o1|] eqn:E; [|discriminate]. simpl in *.
    f_equal. rewrite list_fmap_insert. apply list_insert_id.
    rewrite list_lookup_fmap, E. simpl.
    rewrite (elem_view_upd _ _ _ _ Hat), (obj_at_not_ref _ _ _ Hat). reflexivity.
Qed.

Lemma annots_entry_direct v :
  elem_view v = None ->
  match v with
  | ORef og => Some (inl og)
  | _ => Some (inr (iter_view v))
  end = Some (@inr objgen _ (iter_view v)).
Proof. destruct v; try reflexivity. discriminate. Qed.

Lemma annots_view_upd o p kv k v :
  obj_at o p = Some (ODict kv) -> kv <> [] -> k <> "/Annots" ->
  annots_view (obj_upd (fun _ => ODict (dict_set k v kv)) o p) = annots_view o.
Proof.
  intros Hat Hkv Hk. destruct p as [|[k1|i] p]; simpl in *.
  - injection Hat as ->. rewrite (dict_get_set_ne _ _ _ _ Hk). reflexivity.
  - destruct o; try discriminate.
    destruct (dict_get k1 d) as [o1|] eqn:E; [|discriminate]. simpl in *.
    f_equal. destruct (String.eqb_spec k1 "/Annots") as [->|Hne].
    + rewrite dict_get_set_eq, E.
      rewrite (annots_entry_direct _ (elem_view_upd _ _ _ _ Hat)).
      rewrite (annots_entry_direct _ (obj_at_not_ref _ _ _ Hat)).
      rewrite (iter_view_upd _ _ _ _ Hat Hkv); [reflexivity|].
      destruct kv as [|[k0 v0] kv]; simpl; [discriminate|].
      destruct (String.eqb k0 k); discriminate.
    + rewrite (dict_get_set_ne _ _ _ _ Hne). reflexivity.
  - destruct o; try discriminate.
    destruct (l !! i); [reflexivity|discriminate].
Qed.

Lemma dict_set_nonempty k v kv : dict_set k v kv <> [].
Proof.
  destruct kv as [|[k0 v0] kv]; simpl; [discriminate|].
  destruct (String.eqb k0 k); discriminate.
Qed.

Lemma read_ind pdf og : read pdf (ind og) = default ONull (objects pdf !! og).
Proof.
  unfold read, lookup_loc. simpl. destruct (objects pdf !! og); reflexivity.
Qed.

(** Writing an attribute other than "/Annots" into a non-empty dictionary,
    wherever it lives, changes no page's annotation list. *)
Lemma write_views pdf h kv k v og :
  read pdf h = ODict kv -> kv <> [] ->
  let pdf' := write pdf h (fun _ => ODict (dict_set k v kv)) in
  iter_view (read pdf' (ind og)) = iter_view (read pdf (ind og)) /\
  (k <> "/Annots" ->
   annots_view (read pdf' (ind og)) = annots_view (read pdf (ind og))).
Proof.
  intros Hr Hkv pdf'. subst pdf'. apply read_dict_lookup in Hr.
  unfold lookup_loc in Hr. rewrite !read_ind. unfold write.
  destruct (objects pdf !! base h) as [o|] eqn:Eo; simpl in Hr; [|discriminate].
  simpl. destruct (decide (og = base h)) as [->|Hne].
  - rewrite lookup_insert_eq, Eo. simpl. split.
    + apply (iter_view_upd _ _ _ _ Hr Hkv), dict_set_nonempty.
    + intros Hk. apply (annots_view_upd _ _ _ _ _ Hr Hkv Hk).
  - rewrite lookup_insert_ne by congruence. split; reflexivity.
Qed.

Lemma setitem_page_annots pdf h k v pdf' kv :
  read pdf h = ODict kv -> kv <> [] -> k <> "/Annots" ->
  setitem pdf h k v = Ok pdf' ->
  forall pg, page_annots pdf' pg = page_annots pdf pg.
Proof.
  intros Hr Hkv Hk Hset pg. unfold setitem in Hset. rewrite Hr in Hset.
  injection Hset as <-. rewrite !page_annots_page_annots_view.
  unfold page_annots_view.
  destruct (write_views pdf h kv k v pg Hr Hkv) as [_ Hav].
  rewrite (Hav Hk).
  destruct (annots_view (read pdf (ind pg))) as [[[og|view]|]|]; try reflexivity.
  destruct (write_views pdf h kv k v og Hr Hkv) as [-> _]. reflexivity.
Qed.

(** *** A fresh object *)

Lemma foldr_max_ge (l : list Z) x : x ∈ l -> x <= foldr Z.max 0 l.
Proof.
  induction l as [|y l IH]; simpl.
  - intros H. inversion H.
  - intros [->|H]%elem_of_cons; [lia|]. specialize (IH H). lia.
Qed.

Lemma next_objid_fresh pdf g : objects pdf !! (next_objid pdf, g) = None.
Proof.
  destruct (objects pdf !! (next_objid pdf, g)) as [o|] eqn:E; [|reflexivity].
  exfalso. apply elem_of_map_to_list in E.
  assert (next_objid pdf ∈ fst <$> (map_to_list (objects pdf)).*1) as Hin.
  { apply list_elem_of_fmap. exists (next_objid pdf, g). split; [reflexivity|].
    apply list_elem_of_fmap. eexists. split; [|exact E]. reflexivity. }
  apply foldr_max_ge in Hin. unfold next_objid in Hin at 1. lia.
Qed.

Lemma read_make_indirect pdf o h :
  read pdf h <> ONull -> read (fst (make_indirect pdf o)) h = read pdf h.
Proof.
  intros Hnn. unfold read, lookup_loc in *. simpl.
  destruct (decide (base h = (next_objid pdf, 0))) as [E|Hne].
  - rewrite E, next_objid_fresh in Hnn. contradiction.
  - rewrite lookup_insert_ne by congruence. reflexivity.
Qed.

Lemma make_indirect_page_annots pdf o pg annots :
  page_annots pdf pg = Ok annots ->
  page_annots (fst (make_indirect pdf o)) pg = Ok annots.
Proof.
  rewrite !page_annots_page_annots_view. unfold page_annots_view.
  intros H.
  assert (read pdf (ind pg) <> ONull) as Hpg
    by (intros E; rewrite E in H; discriminate).
  rewrite (read_make_indirect _ _ _ Hpg).
  destruct (annots_view (read pdf (ind pg))) as [[[og|view]|]|]; try exact H.
  assert (read pdf (ind og) <> ONull) as Hog
    by (intros E; rewrite E in H; discriminate).
  rewrite (read_make_indirect _ _ _ Hog). exact H.
Qed.

(* ===================================================================== *)
(** ** "Set page link" *)
(* ===================================================================== *)

Lemma write_objects_other pdf h f og :
  og <> base h -> objects (write pdf h f) !! og = objects pdf !! og.
Proof.
  intros Hne. unfold write. destruct (objects pdf !! base h); [|reflexivity].
  simpl. rewrite lookup_insert_ne by congruence. reflexivity.
Qed.

Lemma located_nonempty pdf field_name widget :
  located pdf field_name widget ->
  exists kv, read pdf widget = ODict kv /\ kv <> [].
Proof.
  intros (kv & Hr & Hn). exists kv. split; [exact Hr|].
  intros ->. discriminate.
Qed.

Lemma read_dict_base pdf h kv :
  read pdf h = ODict kv -> is_Some (objects pdf !! base h).
Proof.
  intros H%read_dict_lookup. unfold lookup_loc in H.
  destruct (objects pdf !! base h); [eauto | discriminate].
Qed.

Lemma out_of_range_test (page : Z) (n : nat) :
  ~ (1 <= page <= Z.of_nat n) ->
  (0 <=? page - 1) && (page - 1 <? Z.of_nat n) = false.
Proof. intros H. apply andb_false_iff. lia. Qed.

(** The helper that writes the sentinel: on a dictionary it goes through and
    "/P" is then the reference to [fake_objid], generation 0. *)
Lemma set_invalid_page_reference_sets pdf widget fake_objid kv :
  read pdf widget = ODict kv ->
  exists pdf',
    set_invalid_page_reference pdf widget fake_objid = Ok pdf' /\
    field_get pdf' widget "/P" = Some (ORef (fake_objid, 0)).
Proof.
  intros Hr. unfold set_invalid_page_reference.
  destruct (setitem_dict pdf widget "/P" (ORef (fake_objid, 0)) kv Hr)
    as (pdf' & Hset & _ & _).
  exists pdf'. split; [exact Hset | apply (field_get_setitem _ _ _ _ _ Hset)].
Qed.

Lemma change_set_p_out_of_range name page pdf widget g :
  load_widget pdf name = Ok (Some widget) ->
  ~ (1 <= page <= Z.of_nat (length (pages pdf))) ->
  change_set_p name page pdf g =
    match setitem (fst (make_indirect pdf (ODict []))) widget "/P"
                  (ORef (9999, 0)) with
    | Ok pdf' =>
        Returned true pdf'
          (log ("⚠ Страницы " +:+ pretty page +:+ " нет. /P для '" +:+ name
                +:+ "' → 9999 0 R (invalid).") g)
    | Raise e => Raised e g
    end.
Proof.
  intros Hload Hout. unfold change_set_p, with_widget. rewrite Hload.
  rewrite (out_of_range_test _ _ Hout). reflexivity.
Qed.


(** *** Writes into an indirect dictionary and what they leave alone *)

Lemma setitem_ind_other pdf w k v pdf' h :
  setitem pdf (ind w) k v = Ok pdf' ->
  base h <> w \/ (exists k' rest, path h = SKey k' :: rest /\ k' <> k) ->
  lookup_loc pdf' h = lookup_loc pdf h.
Proof.
  unfold setitem. destruct (read pdf (ind w)) as [| | | | | | |kv|] eqn:Hr;
    try discriminate.
  intros [= <-] [Hb | (k' & rest & Hp & Hk)].
  - apply lookup_loc_write_other. exact Hb.
  - destruct (decide (base h = w)) as [E|Hne];
      [|apply lookup_loc_write_other; exact Hne].
    apply read_dict_lookup in Hr. unfold lookup_loc in Hr. simpl in Hr.
    unfold lookup_loc, write. simpl. rewrite E.
    destruct (objects pdf !! w) as [o|] eqn:Eo; simpl in *; [|discriminate].
    injection Hr as ->. rewrite lookup_insert_eq. simpl. rewrite Hp. simpl.
    rewrite (dict_get_set_ne _ _ _ _ (not_eq_sym Hk)). reflexivity.
Qed.

Lemma read_setitem_ind_other pdf w k v pdf' h :
  setitem pdf (ind w) k v = Ok pdf' ->
  base h <> w \/ (exists k' rest, path h = SKey k' :: rest /\ k' <> k) ->
  read pdf' h = read pdf h.
Proof.
  intros Hset Hh. unfold read. rewrite (setitem_ind_other _ _ _ _ _ _ Hset Hh).
  reflexivity.
Qed.

Lemma setitem_ind_read pdf w k v pdf' og :
  setitem pdf (ind w) k v = Ok pdf' ->
  read pdf' (ind og) =
    match read pdf (ind og) with
    | ODict kv => if decide (og = w) then ODict (dict_set k v kv) else ODict kv
    | o => o
    end.
Proof.
  intros Hset. destruct (decide (og = w)) as [->|Hne].
  - unfold setitem in Hset.
    destruct (read pdf (ind w)) as [| | | | | | |kv|] eqn:Hr; try discriminate.
    injection Hset as <-. apply (read_write_dict _ _ _ _ Hr).
  - rewrite (read_setitem_ind_other _ _ _ _ _ (ind og) Hset) by (left; exact Hne).
    destruct (read pdf (ind og)); reflexivity.
Qed.

Lemma setitem_ind_is_dict pdf w k v pdf' og :
  setitem pdf (ind w) k v = Ok pdf' ->
  is_dict pdf' (ind og) = is_dict pdf (ind og).
Proof.
  intros Hset. unfold is_dict. rewrite (setitem_ind_read _ _ _ _ _ og Hset).
  destruct (read pdf (ind og)); try reflexivity. destruct (decide _); reflexivity.
Qed.

Lemma setitem_ind_field_get pdf w k v pdf' og k' :
  setitem pdf (ind w) k v = Ok pdf' -> k' <> k ->
  field_get pdf' (ind og) k' = field_get pdf (ind og) k'.
Proof.
  intros Hset Hk. unfold field_get. rewrite (setitem_ind_read _ _ _ _ _ og Hset).
  destruct (read pdf (ind og)); try reflexivity.
  destruct (decide _); [|reflexivity].
  apply dict_get_set_ne. congruence.
Qed.

Lemma setitem_ind_attr pdf w k v pdf' og k' :
  setitem pdf (ind w) k v = Ok pdf' -> k' <> k ->
  attr pdf' (ind og) k' = attr pdf (ind og) k'.
Proof.
  intros Hset Hk. unfold attr.
  rewrite (setitem_ind_field_get _ _ _ _ _ _ _ Hset Hk). reflexivity.
Qed.

(** A handle that [attr] gives on an attribute of an indirect object is on
    another indirect object or goes through that attribute. *)
Lemma attr_ind_shape pdf og k a :
  attr pdf (ind og) k = Some a ->
  (exists og', a = ind og') \/ a = mkLoc og [SKey k].
Proof.
  unfold attr. destruct (field_get pdf (ind og) k) as [v|]; [|discriminate].
  intros [= <-]. destruct v; eauto.
Qed.

(** Setting an attribute of the indirect dictionary [w] keeps every array
    that another attribute of an indirect object leads to. *)
Lemma setitem_ind_array pdf w k v pdf' og k' a :
  setitem pdf (ind w) k v = Ok pdf' -> k' <> k ->
  attr pdf (ind og) k' = Some a ->
  is_array pdf a = true ->
  read pdf' a = read pdf a.
Proof.
  intros Hset Hk Ha Harr.
  apply (read_setitem_ind_other _ _ _ _ _ _ Hset).
  destruct (attr_ind_shape _ _ _ _ Ha) as [[og' ->] | ->].
  - left. simpl. intros ->. unfold setitem in Hset. unfold is_array in Harr.
    destruct (read pdf (ind w)); discriminate.
  - right. exists k', []. split; [reflexivity | exact Hk].
Qed.

Lemma annots_of_setitem_ind pdf w k v pdf' pg :
  setitem pdf (ind w) k v = Ok pdf' -> k <> "/Annots" ->
  (forall a, attr pdf (ind pg) "/Annots" = Some a -> is_array pdf a = true) ->
  annots_of pdf' pg = annots_of pdf pg /\
  (forall a, attr pdf' (ind pg) "/Annots" = Some a -> is_array pdf' a = true).
Proof.
  intros Hset Hk Harr.
  assert ("/Annots" <> k) as Hk' by congruence.
  unfold annots_of. rewrite (setitem_ind_attr _ _ _ _ _ pg _ Hset Hk').
  destruct (attr pdf (ind pg) "/Annots") as [a|] eqn:Ea; [|split; [reflexivity|discriminate]].
  pose proof (setitem_ind_array _ _ _ _ _ _ _ _ Hset Hk' Ea (Harr _ eq_refl)) as Hr.
  unfold members, is_array. rewrite Hr. split; [reflexivity|].
  intros a' [= <-]. rewrite Hr. exact (Harr _ eq_refl).
Qed.

(** *** Appending to a page's annotation list *)

Lemma read_write_arr pdf h l o :
  read pdf h = OArr l -> read (write pdf h (fun _ => o)) h = o.
Proof.
  intros H. unfold read.
  rewrite (lookup_loc_write_same _ _ _ _ (read_arr_lookup _ _ _ H)).
  reflexivity.
Qed.

Lemma is_array_read pdf h : is_array pdf h = true -> exists l, read pdf h = OArr l.
Proof. unfold is_array. destruct (read pdf h); try discriminate. eauto. Qed.

Lemma members_snoc pdf pdf' a l og :
  read pdf a = OArr l -> read pdf' a = OArr (l ++ [ORef og]) ->
  members pdf' a = members pdf a ++ [ind og].
Proof.
  intros H H'. unfold members. rewrite H, H', imap_app. reflexivity.
Qed.

Lemma append_annots pdf w pg a :
  is_dict pdf (ind w) = true ->
  is_dict pdf (ind pg) = true ->
  attr pdf (ind pg) "/Annots" = Some a ->
  is_array pdf a = true ->
  exists pdf',
    append pdf a (ORef w) = Ok pdf' /\
    pages pdf' = pages pdf /\
    field_get pdf' (ind w) "/P" = field_get pdf (ind w) "/P" /\
    attr pdf' (ind pg) "/Annots" = Some a /\
    is_array pdf' a = true /\
    members pdf' a = members pdf a ++ [ind w].
Proof.
  intros Hw Hpg Ha Harr.
  destruct (is_array_read _ _ Harr) as [l Hl].
  destruct (is_dict_read _ _ Hw) as [kvw Hrw].
  destruct (is_dict_read _ _ Hpg) as [d Hrp].
  destruct (attr_ind_shape _ _ _ _ Ha) as [[ag ->] | ->].
  - (* the list is an indirect array *)
    assert (ag <> w) as Hnw by (intros ->; congruence).
    assert (ag <> pg) as Hnp by (intros ->; congruence).
    exists (write pdf (ind ag) (fun _ => OArr (l ++ [ORef w]))).
    pose proof (read_write_arr pdf (ind ag) l (OArr (l ++ [ORef w])) Hl) as Hl'.
    assert (forall og k, og <> ag ->
              field_get (write pdf (ind ag) (fun _ => OArr (l ++ [ORef w])))
                        (ind og) k = field_get pdf (ind og) k) as Hfg.
    { intros og k Hne. unfold field_get, read.
      rewrite lookup_loc_write_other by (simpl; congruence). reflexivity. }
    repeat split.
    + unfold append. rewrite Hl. reflexivity.
    + apply write_pages.
    + apply Hfg. congruence.
    + unfold attr in *. rewrite Hfg by congruence. exact Ha.
    + unfold is_array. rewrite Hl'. reflexivity.
    + eapply members_snoc; eassumption.
  - (* the list is a direct value of the page dictionary *)
    assert (dict_get "/Annots" d = Some (OArr l)) as Hd.
    { unfold attr, field_get in Ha. rewrite Hrp in Ha.
      destruct (dict_get "/Annots" d) as [v|] eqn:Ev; [|discriminate].
      assert (is_ORef v = false) as Hnr
        by (destruct v; try reflexivity; discriminate).
      pose proof (read_member_key _ _ _ _ _ Hrp Ev Hnr) as Hv.
      injection Ha as Ha. rewrite Ha, Hl in Hv. congruence. }
    destruct (setitem_dict pdf (ind pg) "/Annots" (OArr (l ++ [ORef w])) d Hrp)
      as (pdf' & Hset & _ & Hpages).
    assert (append pdf (mkLoc pg [SKey "/Annots"]) (ORef w) = Ok pdf') as Happ.
    { rewrite <- Hset. unfold append, setitem. rewrite Hl, Hrp. f_equal.
      apply read_dict_lookup in Hrp. unfold lookup_loc in Hrp. simpl in Hrp.
      unfold write. simpl.
      destruct (objects pdf !! pg) as [o|]; simpl in Hrp; [|discriminate].
      injection Hrp as ->. simpl. rewrite Hd. reflexivity. }
    destruct (attr_setitem _ _ _ _ _ Hset) as [Hattr Hread].
    specialize (Hread eq_refl). simpl in Hattr, Hread.
    exists pdf'. repeat split.
    + exact Happ.
    + exact Hpages.
    + apply (setitem_ind_field_get _ _ _ _ _ _ _ Hset). discriminate.
    + exact Hattr.
    + unfold is_array. rewrite Hread. reflexivity.
    + eapply members_snoc; eassumption.
Qed.

Lemma fix_annots_page_binding_indirect pdf w pg page_index :
  py_index (pages pdf) page_index = Some pg ->
  is_dict pdf (ind w) = true ->
  is_dict pdf (ind pg) = true ->
  (forall a, attr pdf (ind pg) "/Annots" = Some a -> is_array pdf a = true) ->
  exists pdf',
    fix_annots_page_binding pdf (ind w) page_index = Ok pdf' /\
    pages pdf' = pages pdf /\
    field_get pdf' (ind w) "/P" = Some (ORef pg) /\
    is_Some (attr pdf' (ind pg) "/Annots") /\
    annots_of pdf' pg =
      annots_of pdf pg ++
      (if existsb (fun a => bool_decide (objid a = Some (fst w)))
                  (annots_of pdf pg)
       then [] else [ind w]).
Proof.
  intros Hidx Hw Hpg Harr. unfold fix_annots_page_binding. rewrite Hidx.
  destruct (is_dict_read _ _ Hw) as [kvw Hrw].
  destruct (setitem_dict pdf (ind w) "/P" (ORef pg) kvw Hrw)
    as (pdf1 & Hset1 & _ & Hpages1).
  rewrite Hset1. simpl.
  assert ("/P" <> "/Annots") as Hk by discriminate.
  pose proof (field_get_setitem _ _ _ _ _ Hset1) as HP1.
  pose proof (setitem_ind_is_dict _ _ _ _ _ pg Hset1) as Hpg1.
  rewrite Hpg in Hpg1.
  pose proof (setitem_ind_is_dict _ _ _ _ _ w Hset1) as Hw1.
  rewrite Hw in Hw1.
  destruct (annots_of_setitem_ind _ _ _ _ _ pg Hset1 Hk Harr) as [Han1 Harr1].
  rewrite <- Han1. clear Han1.
  rewrite (has_key_dict _ _ _ Hpg1). simpl.
  destruct (attr pdf1 (ind pg) "/Annots") as [a|] eqn:Ea; simpl.
  - (* the page has a list *)
    unfold getitem. rewrite (get_dict _ _ _ Hpg1), Ea. simpl.
    rewrite (iterate_array _ _ (Harr1 _ eq_refl)). simpl.
    assert (annots_of pdf1 pg = members pdf1 a) as Han
      by (unfold annots_of; rewrite Ea; reflexivity).
    rewrite Han.
    destruct (existsb _ (members pdf1 a)) eqn:Eex.
    + exists pdf1. rewrite Han, Ea, app_nil_r. eauto.
    + destruct (append_annots pdf1 w pg a Hw1 Hpg1 Ea (Harr1 _ eq_refl))
        as (pdf' & Happ & Hpages & HP & Hattr & _ & Hmem).
      exists pdf'. unfold as_value. simpl. rewrite Happ.
      unfold annots_of. rewrite Hattr, Hmem, HP, Hpages.
      repeat split; eauto.
  - (* the page gets an empty list first *)
    destruct (is_dict_read _ _ Hpg1) as [d Hrp].
    destruct (setitem_dict pdf1 (ind pg) "/Annots" (OArr []) d Hrp)
      as (pdf2 & Hset2 & _ & Hpages2).
    rewrite Hset2. simpl.
    pose proof (setitem_ind_is_dict _ _ _ _ _ pg Hset2) as Hpg2.
    rewrite Hpg1 in Hpg2.
    pose proof (setitem_ind_is_dict _ _ _ _ _ w Hset2) as Hw2.
    rewrite Hw1 in Hw2.
    destruct (attr_setitem _ _ _ _ _ Hset2) as [Hattr2 Hread2].
    specialize (Hread2 eq_refl). simpl in Hattr2, Hread2.
    assert (is_array pdf2 (mkLoc pg [SKey "/Annots"]) = true) as Harr2
      by (unfold is_array; rewrite Hread2; reflexivity).
    unfold getitem. rewrite (get_dict _ _ _ Hpg2), Hattr2. simpl.
    rewrite (iterate_array _ _ Harr2). simpl.
    assert (members pdf2 (mkLoc pg [SKey "/Annots"]) = []) as Hm2
      by (unfold members; rewrite Hread2; reflexivity).
    rewrite Hm2. simpl.
    destruct (append_annots pdf2 w pg _ Hw2 Hpg2 Hattr2 Harr2)
      as (pdf' & Happ & Hpages & HP & Hattr & _ & Hmem).
    exists pdf'. unfold as_value. simpl. rewrite Happ.
    assert (annots_of pdf1 pg = []) as ->
      by (unfold annots_of; rewrite Ea; reflexivity).
    unfold annots_of. rewrite Hattr, Hmem, Hm2, HP, Hpages, Hpages2.
    rewrite (setitem_ind_field_get _ _ _ _ _ _ _ Hset2) by discriminate.
    repeat split; eauto.
Qed.

Lemma py_index_in_range {A} (l : list A) (i : Z) :
  0 <= i < Z.of_nat (length l) -> py_index l i = l !! Z.to_nat i.
Proof.
  intros H. unfold py_index.
  rewrite (proj2 (Z.leb_le _ _)), (proj2 (Z.ltb_lt _ _)) by lia. reflexivity.
Qed.

Lemma in_range_test (page : Z) (n : nat) :
  1 <= page <= Z.of_nat n ->
  (0 <=? page - 1) && (page - 1 <? Z.of_nat n) = true.
Proof. intros H. apply andb_true_iff. split; [apply Z.leb_le|apply Z.ltb_lt]; lia. Qed.

Lemma not_listed (l : list Loc) (n : Z) :
  (forall a, a ∈ l -> objid a <> Some n) ->
  existsb (fun a => bool_decide (objid a = Some n)) l = false /\
  List.filter (fun a => bool_decide (objid a = Some n)) l = [].
Proof.
  induction l as [|a l IH]; intros H; simpl; [split; reflexivity|].
  rewrite bool_decide_eq_false_2 by (apply H; left).
  apply IH. intros b Hb. apply H. right. exact Hb.
Qed.


(* ===================================================================== *)
(** ** More on the change applicator, undo and the table refresh *)
(* ===================================================================== *)

(** X1.  [apply_change] gives up early in two ways.  Without a document it
    shows its error box and does nothing else, whatever the procedure is.
    When the procedure reports no change, the world is the one it was with
    the window as the procedure left it: nothing is saved, no line is logged
    by the applicator and the table is not refreshed. *)
Theorem apply_change_gives_up (change_func : Change) (action_name : string)
    (w : World) :
  (current_pdf_bytes w = None ->
   apply_change change_func action_name w =
     (with_gui (messagebox (ShowError "Ошибка" "Сначала открой PDF.") (gui w)) w,
      Normal)) /\
  (forall bytes pdf pdf' g,
     current_pdf_bytes w = Some bytes ->
     pike_open bytes = Ok pdf ->
     change_func pdf (gui w) = Returned false pdf' g ->
     apply_change change_func action_name w = (with_gui g w, Normal)).
Proof.
  split.
  - intros H. unfold apply_change. rewrite H. reflexivity.
  - intros bytes pdf pdf' g Hc Ho Hch. unfold apply_change.
    rewrite Hc, Ho, Hch. reflexivity.
Qed.

(** X2.  All that [apply_change] can do to the document store: either the
    store is what it was and the handler returns normally, or the mutation
    went through and the old buffer was pushed under the new one.  So the
    history is never shortened or rewritten, a loaded buffer is never lost,
    and an exception can leave the handler only after the new buffer is
    in place. *)
Theorem apply_change_outcomes (change_func : Change) (action_name : string)
    (w : World) :
  let r := apply_change change_func action_name w in
  (store (fst r) = store w /\ snd r = Normal) \/
  (exists prev_bytes new_bytes,
     current_pdf_bytes w = Some prev_bytes /\
     Succeeds change_func prev_bytes (gui w) new_bytes /\
     store (fst r) = (Some new_bytes, undo_stack w ++ [prev_bytes])).
Proof.
  destruct w as [cur st g]. unfold apply_change, store; simpl.
  destruct cur as [prev|]; [|left; split; reflexivity].
  destruct (pike_open prev) as [pdf|e] eqn:Ho; [|left; split; reflexivity].
  destruct (change_func pdf g) as [[|] pdf' g'|e g'] eqn:Hch;
    try (left; split; reflexivity).
  destruct (pike_save pdf') as [new|e] eqn:Hs; [|left; split; reflexivity].
  right. exists prev, new. split; [reflexivity|]. split.
  - exists pdf, pdf', g'. repeat split; assumption.
  - pose proof (refresh_fields_store
                  (mkWorld (Some new) (st ++ [prev])
                     (if Py.truthy action_name
                      then log ("✔ " +:+ action_name +:+ " выполнено.") g'
                      else g'))) as H.
    exact H.
Qed.

(** X3.  Undo steps back through the mutations one at a time, last first:
    after two mutations that went through, the first undo makes the buffer
    of the first mutation current again and the second undo the original
    one, with the history as it was at the start. *)
Theorem undo_is_last_in_first_out (c1 c2 : Change) (a1 a2 : string)
    (w : World) (b0 b1 b2 : list byte) :
  current_pdf_bytes w = Some b0 ->
  Succeeds c1 b0 (gui w) b1 ->
  let w1 := fst (apply_change c1 a1 w) in
  Succeeds c2 b1 (gui w1) b2 ->
  let w2 := fst (apply_change c2 a2 w1) in
  let w3 := fst (action_undo w2) in
  let w4 := fst (action_undo w3) in
  store w2 = (Some b2, undo_stack w ++ [b0; b1]) /\
  store w3 = (Some b1, undo_stack w ++ [b0]) /\
  store w4 = (Some b0, undo_stack w).
Proof.
  intros Hc H1 w1 H2 w2 w3 w4.
  pose proof (apply_change_success c1 a1 w _ _ Hc H1) as S1. fold w1 in S1.
  unfold store in S1. injection S1 as C1 U1.
  pose proof (apply_change_success c2 a2 w1 _ _ C1 H2) as S2. fold w2 in S2.
  rewrite U1, <- app_assoc in S2. simpl in S2.
  unfold store in S2. injection S2 as C2 U2.
  assert (undo_stack w2 = (undo_stack w ++ [b0]) ++ [b1]) as U2'
    by (rewrite U2, <- app_assoc; reflexivity).
  pose proof (action_undo_pop w2 _ _ U2') as S3. fold w3 in S3.
  unfold store in S3. injection S3 as C3 U3.
  pose proof (action_undo_pop w3 _ _ U3) as S4. fold w4 in S4.
  unfold store. rewrite C2, U2. split; [reflexivity|]. split.
  - rewrite C3, U3. reflexivity.
  - exact S4.
Qed.

(** X4.  [refresh_fields] is a pure read of the current buffer: it never
    touches the buffer or the history, the table it leaves does not depend on
    the rows that were shown before, and refreshing again gives the same
    table and ends the same way. *)
Theorem refresh_fields_recomputes (w : World) :
  store (fst (refresh_fields w)) = store w /\
  (forall rows,
     let w0 := with_gui (set_tree rows (gui w)) w in
     tree (gui (fst (refresh_fields w0))) = tree (gui (fst (refresh_fields w))) /\
     snd (refresh_fields w0) = snd (refresh_fields w)) /\
  tree (gui (fst (refresh_fields (fst (refresh_fields w))))) =
    tree (gui (fst (refresh_fields w))) /\
  snd (refresh_fields (fst (refresh_fields w))) = snd (refresh_fields w).
Proof.
  split; [apply refresh_fields_store|].
  destruct w as [cur st g]. unfold refresh_fields; simpl.
  destruct cur as [bytes|]; simpl; [|repeat split; reflexivity].
  destruct (fitz_open bytes) as [doc_fitz|e] eqn:Hf; simpl;
    [|rewrite ?Hf; repeat split; reflexivity].
  destruct (pike_open bytes) as [pdf|e] eqn:Ho; simpl;
    [|rewrite ?Hf, ?Ho; repeat split; reflexivity].
  destruct (report doc_fitz pdf) as [rows|e] eqn:Hr; simpl;
    rewrite ?Hf, ?Ho, ?Hr; repeat split; reflexivity.
Qed.

(** X5.  When the current buffer cannot be opened, by PyMuPDF or, after
    that, by pikepdf, the table is left empty (the rows of the previous
    buffer do not stay), one error line is logged, the store is untouched
    and no exception leaves the handler. *)
Theorem refresh_fields_unreadable (w : World) (bytes : list byte) :
  current_pdf_bytes w = Some bytes ->
  (forall e, fitz_open bytes = Raise e ->
     refresh_fields w =
       (with_gui (log ("❌ PyMuPDF error: " +:+ e) (set_tree [] (gui w))) w,
        Normal)) /\
  (forall doc_fitz e, fitz_open bytes = Ok doc_fitz ->
     pike_open bytes = Raise e ->
     refresh_fields w =
       (with_gui (log ("❌ PikePDF error: " +:+ e) (set_tree [] (gui w))) w,
        Normal)).
Proof.
  intros Hc. destruct w as [cur st g]. simpl in Hc. subst cur.
  unfold refresh_fields; simpl. split.
  - intros e ->. reflexivity.
  - intros doc_fitz e -> ->. reflexivity.
Qed.

(* ===================================================================== *)
(** ** More on the locator and the mutation closures *)
(* ===================================================================== *)

Lemma iterate_Ok_members pdf h l : iterate pdf h = Ok l -> l = members pdf h.
Proof.
  unfold iterate, members.
  destruct (read pdf h) as [| | | | | |l'|[|kv d]|]; try discriminate;
    intros [= <-]; reflexivity.
Qed.

Lemma get_Ok_attr pdf h k t : get pdf h k = Ok t -> t = attr pdf h k.
Proof.
  intros H. apply get_Ok_dict in H as (kv & Hr & ->).
  unfold attr, field_get. rewrite Hr. reflexivity.
Qed.

Lemma scan_kids_elem pdf field_name kids widget :
  scan_kids pdf field_name kids = Ok (Some widget) ->
  widget ∈ resolve <$> kids.
Proof.
  induction kids as [|kid rest IH]; simpl; [discriminate|].
  intros H. apply bind_Ok_inv in H as (t & _ & H).
  destruct (name_is pdf t field_name).
  - injection H as <-. left.
  - right. exact (IH H).
Qed.

Lemma scan_fields_elem pdf field_name fields widget :
  scan_fields pdf field_name fields = Ok (Some widget) ->
  exists field, field ∈ fields /\
    (widget = resolve field \/ widget ∈ kids_of pdf (resolve field)).
Proof.
  induction fields as [|field rest IH]; simpl; [discriminate|].
  intros H. apply bind_Ok_inv in H as (has_kids & _ & H).
  apply bind_Ok_inv in H as (found & Hfound & H).
  destruct found as [kid_obj|].
  - injection H as <-. exists field. split; [left|]. right.
    destruct has_kids; [|discriminate].
    apply bind_Ok_inv in Hfound as (kids & Hkids & Hfound).
    apply bind_Ok_inv in Hfound as (kid_list & Hit & Hfound).
    unfold getitem in Hkids. apply bind_Ok_inv in Hkids as (o & Ho & Hkids).
    apply get_Ok_attr in Ho. destruct o as [kids'|]; [|discriminate].
    injection Hkids as ->. unfold kids_of. rewrite <- Ho.
    rewrite <- (iterate_Ok_members _ _ _ Hit).
    eapply scan_kids_elem, Hfound.
  - apply bind_Ok_inv in H as (t & _ & H).
    destruct (name_is pdf t field_name).
    + injection H as <-. exists field. split; [left | left; reflexivity].
    + destruct (IH H) as (f & Hin & Hw). exists f. split; [right; exact Hin | exact Hw].
Qed.


Lemma with_widget_not_found msg name body pdf g :
  load_widget pdf name = Ok None ->
  with_widget msg name body pdf g =
    Returned false pdf (messagebox (ShowError "Ошибка" msg) g).
Proof. intros H. unfold with_widget. rewrite H. reflexivity. Qed.

(** X7.  When the selected name is not found in the form, every mutation
    closure shows its error box and reports no change on the untouched
    document, so the handler leaves buffer, history, log and table as they
    were. *)
Theorem field_not_found_changes_nothing (name : string) (pdf : Pdf) (g : Gui) :
  load_widget pdf name = Ok None ->
  let gone msg := Returned false pdf (messagebox (ShowError "Ошибка" msg) g) in
  change_clear_rect name pdf g = gone "Поле не найдено в pikepdf." /\
  change_delete_rect_key name pdf g = gone "Поле не найдено в pikepdf." /\
  (forall rect,
     change_set_rect name rect pdf g = gone "Поле не найдено в pikepdf.") /\
  change_delete_p name pdf g = gone "Поле не найдено." /\
  change_set_p_empty name pdf g = gone "Поле не найдено." /\
  (forall page, change_set_p name page pdf g = gone "Поле не найдено.") /\
  (forall msg body action_name w bytes,
     current_pdf_bytes w = Some bytes ->
     pike_open bytes = Ok pdf ->
     gui w = g ->
     apply_change (with_widget msg name body) action_name w =
       (with_gui (messagebox (ShowError "Ошибка" msg) g) w, Normal)).
Proof.
  intros H gone. subst gone.
  repeat split; intros; try (apply with_widget_not_found; exact H).
  unfold apply_change. rewrite H0, H1, H2, (with_widget_not_found _ _ _ _ _ H).
  reflexivity.
Qed.

Lemma dict_get_del_ne k k' d :
  k <> k' -> dict_get k' (dict_del k d) = dict_get k' d.
Proof.
  intros Hne. induction d as [|[k0 v0] d IH]; simpl; [reflexivity|].
  destruct (String.eqb_spec k0 k) as [->|Hk]; simpl.
  - destruct (String.eqb_spec k k'); [contradiction | exact IH].
  - rewrite IH. reflexivity.
Qed.

Lemma setitem_field_get_other pdf h k v pdf' k' :
  setitem pdf h k v = Ok pdf' -> k' <> k ->
  field_get pdf' h k' = field_get pdf h k'.
Proof.
  unfold setitem, field_get. destruct (read pdf h) eqn:E; try discriminate.
  intros [= <-] Hne. rewrite (read_write_dict _ _ _ _ E).
  apply dict_get_set_ne. congruence.
Qed.

Lemma delitem_present pdf h k v :
  field_get pdf h k = Some v ->
  exists pdf',
    delitem pdf h k = Ok pdf' /\
    field_get pdf' h k = None /\
    (forall k', k' <> k -> field_get pdf' h k' = field_get pdf h k') /\
    pages pdf' = pages pdf.
Proof.
  unfold field_get, delitem. destruct (read pdf h) eqn:E; try discriminate.
  intros Hk. rewrite Hk. eexists. split; [reflexivity|].
  rewrite (read_write_dict _ _ _ _ E). split; [apply dict_get_del_eq|].
  split; [|apply write_pages].
  intros k' Hne. apply dict_get_del_ne. congruence.
Qed.

(** X8.  "Clear rectangle" leaves the field with a "/Rect" that is there
    and is the empty array, whatever it was before, touches no other
    attribute of the field and keeps the page list; the reporter then shows
    "[]" for the field. *)
Theorem clear_rect_present_but_empty (name : string) (pdf : Pdf)
    (widget : Loc) (g : Gui) :
  load_widget pdf name = Ok (Some widget) ->
  exists pdf' g',
    change_clear_rect name pdf g = Returned true pdf' g' /\
    field_get pdf' widget "/Rect" = Some (OArr []) /\
    (forall k, k <> "/Rect" -> field_get pdf' widget k = field_get pdf widget k) /\
    pages pdf' = pages pdf /\
    forall xrefs i, col_rect (row_of xrefs pdf' i widget) = "[]".
Proof.
  intros Hload.
  destruct (located_dict _ _ _ (load_widget_located _ _ _ Hload)) as [kv Hr].
  destruct (setitem_dict pdf widget "/Rect" (OArr []) kv Hr)
    as (pdf' & Hset & _ & Hpages).
  exists pdf'. eexists. unfold change_clear_rect, with_widget.
  rewrite Hload, Hset. split; [reflexivity|].
  split; [apply (field_get_setitem _ _ _ _ _ Hset)|].
  split; [intros k Hk; apply (setitem_field_get_other _ _ _ _ _ _ Hset Hk)|].
  split; [exact Hpages|].
  intros xrefs i. unfold row_of; simpl.
  destruct (attr_setitem _ _ _ _ _ Hset) as [-> Hread]. unfold rect_text.
  rewrite (numbers_reals _ _ [] (Hread eq_refl)). reflexivity.
Qed.




(* ===================================================================== *)
(** ** Handlers that stop before any mutation *)
(* ===================================================================== *)

(** X12.  With no row selected every field handler shows the selection
    error box and does nothing else; with a row whose name is empty the
    handlers return at once, without a box. *)
Theorem handlers_without_selection (w : World) :
  let box :=
    (with_gui
       (messagebox (ShowError "Ошибка" "Выберите поле в списке слева.") (gui w))
       w, Normal) in
  (show_field_info None w = box /\
   action_clear_rect None w = box /\
   action_delete_rect_key None w = box /\
   (forall l b r t, action_set_rect None l b r t w = box) /\
   action_delete_p None w = box /\
   (forall answer, action_set_p None answer w = box)) /\
  (show_field_info (Some "") w = (w, Normal) /\
   action_clear_rect (Some "") w = (w, Normal) /\
   action_delete_rect_key (Some "") w = (w, Normal) /\
   (forall l b r t, action_set_rect (Some "") l b r t w = (w, Normal)) /\
   action_delete_p (Some "") w = (w, Normal) /\
   (forall answer, action_set_p (Some "") answer w = (w, Normal))).
Proof. destruct w. repeat split. Qed.


(* ===================================================================== *)
(** ** More on the page binding and the reporter *)
(* ===================================================================== *)

Lemma dict_set_same k v d : dict_get k d = Some v -> dict_set k v d = d.
Proof.
  induction d as [|[k0 v0] d IH]; simpl; [discriminate|].
  destruct (String.eqb_spec k0 k) as [->|Hne].
  - intros [= ->]. reflexivity.
  - intros H. rewrite (IH H). reflexivity.
Qed.

Lemma obj_upd_same o p o' :
  obj_at o p = Some o' -> obj_upd (fun _ => o') o p = o.
Proof.
  revert o. induction p as [|[k|i] p IH]; intros o; simpl.
  - intros [= ->]. reflexivity.
  - destruct o; try reflexivity.
    destruct (dict_get k d) as [o1|] eqn:E; simpl; [|reflexivity].
    intros H. rewrite (IH _ H), (dict_set_same _ _ _ E). reflexivity.
  - destruct o; try reflexivity.
    destruct (l !! i) as [o1|] eqn:E; simpl; [|reflexivity].
    intros H. rewrite (IH _ H), (list_insert_id _ _ _ E). reflexivity.
Qed.

(** Writing a value an attribute already has gives the same document. *)
Lemma setitem_same pdf h k v :
  field_get pdf h k = Some v -> setitem pdf h k v = Ok pdf.
Proof.
  unfold field_get, setitem. destruct (read pdf h) eqn:E; try discriminate.
  intros Hk. rewrite (dict_set_same _ _ _ Hk). f_equal.
  apply read_dict_lookup in E. unfold lookup_loc in E. unfold write.
  destruct (objects pdf !! base h) as [o|] eqn:Eo; simpl in E; [|reflexivity].
  rewrite (obj_upd_same _ _ _ E), (insert_id _ _ _ Eo).
  destruct pdf; reflexivity.
Qed.

Lemma field_get_Some_is_dict pdf h k v :
  field_get pdf h k = Some v -> is_dict pdf h = true.
Proof.
  unfold field_get, is_dict. destruct (read pdf h); try discriminate.
  reflexivity.
Qed.

Lemma members_nonempty_is_array pdf h :
  members pdf h <> [] -> is_array pdf h = true.
Proof.
  unfold members, is_array. destruct (read pdf h); try contradiction.
  reflexivity.
Qed.


(** *** The rows come out page by page *)

Lemma report_annots_appends doc_fitz pdf i annots rows rows' :
  report_annots doc_fitz pdf i annots rows = Ok rows' ->
  exists new, rows' = rows ++ new /\
    Forall (fun r => col_phys_page r = Z.of_nat i + 1) new.
Proof.
  revert rows. induction annots as [|annot rest IH]; intros rows; simpl.
  - intros [= <-]. exists []. rewrite app_nil_r. split; [reflexivity|constructor].
  - intros H. apply bind_Ok_inv in H as (subtype & _ & H).
    destruct (negb (name_is pdf subtype "/Widget")); [exact (IH _ H)|].
    apply bind_Ok_inv in H as (row & Hrow & H).
    destruct (IH _ H) as (new & -> & Hall).
    exists (row :: new). rewrite <- app_assoc. split; [reflexivity|].
    constructor; [|exact Hall].
    unfold widget_row in Hrow.
    apply bind_Ok_inv in Hrow as (t & _ & Hrow).
    apply bind_Ok_inv in Hrow as (rect & _ & Hrow).
    apply bind_Ok_inv in Hrow as (p_val & _ & Hrow).
    injection Hrow as <-. reflexivity.
Qed.

Lemma sorted_after_block (l1 l2 : list Z) (c : Z) :
  Forall (fun x => x = c) l1 -> Forall (fun x => c <= x) l2 ->
  StronglySorted Z.le l2 -> StronglySorted Z.le (l1 ++ l2).
Proof.
  intros H1 H2 Hs. induction l1 as [|x l1 IH]; simpl; [exact Hs|].
  inversion H1 as [|? ? Hx H1']; subst.
  constructor; [apply IH; exact H1'|]. apply Forall_app. split.
  - eapply Forall_impl; [exact H1'|]. simpl. intros y ->. lia.
  - exact H2.
Qed.

Lemma report_pages_appends doc_fitz pdf i pgs rows rows' :
  report_pages doc_fitz pdf i pgs rows = Ok rows' ->
  exists new, rows' = rows ++ new /\
    Forall (fun r => Z.of_nat i + 1 <= col_phys_page r
                     <= Z.of_nat i + Z.of_nat (length pgs)) new /\
    StronglySorted Z.le (col_phys_page <$> new).
Proof.
  revert i rows. induction pgs as [|pg rest IH]; intros i rows; simpl.
  - intros [= <-]. exists []. rewrite app_nil_r.
    repeat split; constructor.
  - intros H. apply bind_Ok_inv in H as (annots & _ & H).
    apply bind_Ok_inv in H as (rows1 & H1 & H).
    destruct (report_annots_appends _ _ _ _ _ _ H1) as (new1 & -> & Hall1).
    destruct (IH _ _ H) as (new2 & -> & Hall2 & Hs2).
    exists (new1 ++ new2). rewrite <- app_assoc. split; [reflexivity|].
    split.
    + apply Forall_app. split.
      * eapply Forall_impl; [exact Hall1|]. simpl. intros r ->. lia.
      * eapply Forall_impl; [exact Hall2|]. simpl. intros r Hr. lia.
    + rewrite fmap_app.
      apply (sorted_after_block _ _ (Z.of_nat i + 1)); [| |exact Hs2].
      * apply Forall_fmap. exact Hall1.
      * apply Forall_fmap. eapply Forall_impl; [exact Hall2|].
        simpl. intros r Hr. lia.
Qed.

(** X15.  Whenever the walk of the reporter comes to an end, on any
    document: every row carries a physical page between 1 and the number of
    pages, and the rows are in the order of their physical pages. *)
Theorem report_rows_by_page (doc_fitz : list Z) (pdf : Pdf) (rows : list Row) :
  report doc_fitz pdf = Ok rows ->
  Forall (fun r => 1 <= col_phys_page r <= Z.of_nat (length (pages pdf))) rows /\
  StronglySorted Z.le (col_phys_page <$> rows).
Proof.
  intros H. unfold report in H.
  destruct (report_pages_appends _ _ _ _ _ _ H) as (new & -> & Hall & Hs).
  simpl. split; [|exact Hs].
  eapply Forall_impl; [exact Hall|]. simpl. intros r Hr. lia.
Qed.

(** X16.  The linked-page column is a number only for a "/P" that is a
    reference, and the number then names a page that is there: it lies
    between 1 and the number of pages, the page at that position has the
    object number of the reference, and no earlier page has it. *)
Theorem page_num_names_a_page (doc_fitz : list Z) (p_val : option Loc) (n : Z) :
  page_num doc_fitz p_val = CNum n ->
  exists p og i,
    p_val = Some p /\ objgen_of p = Some og /\
    n = Z.of_nat i + 1 /\
    1 <= n <= Z.of_nat (length doc_fitz) /\
    doc_fitz !! i = Some (fst og) /\
    forall j, (j < i)%nat -> doc_fitz !! j <> Some (fst og).
Proof.
  rewrite page_num_linked_page. unfold linked_page.
  destruct p_val as [p|]; [|discriminate].
  destruct (objgen_of p) as [og|] eqn:Hog; [|discriminate].
  destruct (list_find _ doc_fitz) as [[i x]|] eqn:E; [|discriminate].
  intros [= <-]. apply list_find_Some in E as (Hi & -> & Hmin).
  exists p, og, i. repeat split; try reflexivity; try assumption.
  - lia.
  - apply lookup_lt_Some in Hi. lia.
  - intros j Hj Hj'. exact (Hmin _ _ Hj' Hj eq_refl).
Qed.

(* ===================================================================== *)
(** ** Opening and saving files *)
(* ===================================================================== *)

(** X17.  "Open PDF": a cancelled dialog changes nothing; a file that
    cannot be read only shows an error box, and the buffer, the history and
    the path field stay as they were; a file that is read becomes the current
    buffer with an empty history, whatever the history was, so that an undo
    right after opening finds nothing to undo and keeps the opened buffer. *)
Theorem choose_pdf_outcomes (path : string) (disk : Disk)
    (pdf_path_var : string) (w : World) :
  let r := choose_pdf path disk pdf_path_var w in
  (path = "" -> r = (w, pdf_path_var, Normal)) /\
  (forall e, path <> "" -> read_file disk path = Raise e ->
     store (fst (fst r)) = store w /\ snd (fst r) = pdf_path_var /\
     snd r = Normal /\
     log_box (gui (fst (fst r))) = log_box (gui w) /\
     tree (gui (fst (fst r))) = tree (gui w)) /\
  (forall bytes, path <> "" -> read_file disk path = Ok bytes ->
     store (fst (fst r)) = (Some bytes, []) /\ snd (fst r) = path /\
     store (fst (action_undo (fst (fst r)))) = (Some bytes, []) /\
     snd (action_undo (fst (fst r))) = Normal).
Proof.
  unfold choose_pdf. split; [intros ->; reflexivity|].
  assert (path <> "" -> negb (Py.truthy path) = false) as Ht
    by (destruct path; [contradiction | reflexivity]).
  split.
  - intros e Hne Hr. rewrite (Ht Hne), Hr. destruct w. repeat split.
  - intros bytes Hne Hr. rewrite (Ht Hne), Hr. simpl.
    set (w0 := mkWorld (Some bytes) [] _).
    pose proof (refresh_fields_store w0) as Hs. unfold store in Hs. simpl in Hs.
    injection Hs as Hc Hu.
    split; [unfold store; rewrite Hc, Hu; reflexivity|].
    split; [reflexivity|].
    unfold action_undo. rewrite Hu. simpl. unfold store. simpl.
    rewrite Hc, Hu. split; reflexivity.
Qed.

(** X18.  "Save As" never changes the buffer, the history or the table and
    never lets an exception escape.  Without a document, and when the dialog
    is cancelled, the disk is not written; otherwise exactly one write is made,
    of the current buffer as it is, to the chosen path.  The dialog proposes
    the base name of the path field, or of "output.pdf" when that field is
    empty (the second "output.pdf" of the source is never used). *)
Theorem action_save_as_writes_buffer (asksaveasfilename : string -> string)
    (disk : Disk) (pdf_path_var : string) (w : World) :
  let r := action_save_as asksaveasfilename disk pdf_path_var w in
  let path := asksaveasfilename (initialfile pdf_path_var) in
  store (fst (fst r)) = store w /\
  tree (gui (fst (fst r))) = tree (gui w) /\
  snd r = Normal /\
  (current_pdf_bytes w = None -> snd (fst r) = disk) /\
  (path = "" -> snd (fst r) = disk) /\
  (forall bytes, current_pdf_bytes w = Some bytes -> path <> "" ->
     snd (fst r) = fst (write_file disk path bytes)) /\
  initialfile pdf_path_var =
    basename (if Py.truthy pdf_path_var then pdf_path_var else "output.pdf").
Proof.
  assert (initialfile pdf_path_var =
            basename (if Py.truthy pdf_path_var then pdf_path_var
                      else "output.pdf")) as Hinit
    by (destruct pdf_path_var; reflexivity).
  destruct w as [cur st g]. unfold action_save_as, store; simpl.
  destruct cur as [bytes|]; simpl.
  - destruct (asksaveasfilename (initialfile pdf_path_var)) as [|c path] eqn:Ep;
      simpl.
    + repeat split; try reflexivity; try discriminate; try contradiction;
        exact Hinit.
    + destruct (write_file disk (String c path) bytes) as [disk' [e|]] eqn:Ew;
        simpl; repeat split; try reflexivity; try discriminate;
        try exact Hinit; intros b [= <-] _; rewrite Ew; reflexivity.
  - repeat split; try reflexivity; try discriminate; exact Hinit.
Qed.

Lemma choose_pdf_step path disk pdf_path_var w bytes :
  path <> "" -> read_file disk path = Ok bytes ->
  current_pdf_bytes (fst (fst (choose_pdf path disk pdf_path_var w))) =
    Some bytes /\
  snd (fst (choose_pdf path disk pdf_path_var w)) = path.
Proof.
  intros Hne Hr. unfold choose_pdf.
  destruct path; [contradiction|]. simpl. rewrite Hr. simpl.
  split; [|reflexivity].
  set (w0 := mkWorld (Some bytes) [] _).
  pose proof (refresh_fields_store w0) as Hs. unfold store in Hs.
  injection Hs as Hc _. exact Hc.
Qed.

(** X19.  Open, then save with no mutation in between: the bytes written
    are the bytes that were read, the dialog having proposed the base name
    of the opened path; on a file system where a write that did not raise
    can be read back, the saved file reads as the opened one. *)
Theorem open_then_save_round_trip (asksaveasfilename : string -> string)
    (path : string) (disk : Disk) (pdf_path_var : string) (w : World)
    (bytes : list byte) :
  path <> "" ->
  read_file disk path = Ok bytes ->
  asksaveasfilename (basename path) <> "" ->
  let opened := fst (choose_pdf path disk pdf_path_var w) in
  let target := asksaveasfilename (basename path) in
  let r := action_save_as asksaveasfilename disk (snd opened) (fst opened) in
  snd (fst r) = fst (write_file disk target bytes) /\
  ((forall d p b d', write_file d p b = (d', None) -> read_file d' p = Ok b) ->
   snd (write_file disk target bytes) = None ->
   read_file (snd (fst r)) target = Ok bytes).
Proof.
  intros Hne Hr Hask opened target r.
  destruct (choose_pdf_step path disk pdf_path_var w bytes Hne Hr)
    as [Hcur Hvar].
  fold opened in Hcur, Hvar.
  assert (initialfile (snd opened) = basename path) as Hinit.
  { rewrite Hvar. unfold initialfile.
    destruct path; [contradiction | reflexivity]. }
  assert (snd (fst r) = fst (write_file disk target bytes)) as Hdisk.
  { subst r. unfold action_save_as. rewrite Hcur, Hinit. fold target.
    destruct target as [|c t] eqn:Et; [contradiction|]. simpl.
    destruct (write_file disk (String c t) bytes) as [disk' [e|]];
      reflexivity. }
  split; [exact Hdisk|].
  intros Hlaw Hok. rewrite Hdisk.
  destruct (write_file disk target bytes) as [disk' o] eqn:Ew.
  simpl in Hok. subst o. apply (Hlaw _ _ _ _ Ew).
Qed.

(* ===================================================================== *)
(** ** The inspection handlers *)
(* ===================================================================== *)

Lemma logged_refl g : logged 0 g g.
Proof.
  repeat split. exists []. rewrite app_nil_r. split; reflexivity.
Qed.

Lemma logged_log n g g' msg : logged n g g' -> logged (S n) g (log msg g').
Proof.
  intros (Ht & Hb & lines & Hl & Hn). repeat split; simpl; try assumption.
  exists (lines ++ [msg]). rewrite Hl, <- app_assoc, length_app. simpl.
  split; [reflexivity | lia].
Qed.

Lemma logged_trans n m g g' g'' :
  logged n g g' -> logged m g' g'' -> logged (n + m) g g''.
Proof.
  intros (Ht & Hb & l1 & Hl1 & Hn1) (Ht' & Hb' & l2 & Hl2 & Hn2).
  split; [congruence|]. split; [congruence|].
  exists (l1 ++ l2). rewrite Hl2, Hl1, <- app_assoc, length_app.
  split; [reflexivity | lia].
Qed.

Lemma show_in_page_blocks name i page g :
  forallb readable page = true ->
  exists g',
    show_in_page name i page g =
      (g', existsb (fun w => String.eqb (field_name w) name) page, Normal) /\
    logged (if existsb (fun w => String.eqb (field_name w) name) page
            then 6 else 0) g g'.
Proof.
  induction page as [|w rest IH]; simpl.
  - intros _. exists g. split; [reflexivity | apply logged_refl].
  - intros [Hw Hrest]%andb_prop.
    destruct (String.eqb (field_name w) name); simpl; [|exact (IH Hrest)].
    unfold readable in Hw. destruct (xref_object w) as [text|e]; [|discriminate].
    eexists. split; [reflexivity|].
    repeat apply logged_log. apply logged_refl.
Qed.

Lemma show_in_doc_blocks name i doc found g :
  forallb (forallb readable) doc = true ->
  exists g',
    show_in_doc name i doc found g =
      (g', found || negb (bool_decide (pages_with name doc = [])), Normal) /\
    logged (6 * length (pages_with name doc)) g g'.
Proof.
  revert i found g. induction doc as [|page rest IH]; intros i found g.
  - simpl. intros _. exists g. rewrite orb_false_r.
    split; [reflexivity | apply logged_refl].
  - cbn [show_in_doc forallb]. intros [Hp Hrest]%andb_prop.
    destruct (show_in_page_blocks name i page g Hp) as (g1 & -> & Hl1).
    destruct (IH (S i)
                (found || existsb (fun w => String.eqb (field_name w) name) page)
                g1 Hrest) as (g2 & -> & Hl2).
    exists g2.
    assert (pages_with name (page :: rest) =
            if existsb (fun w => String.eqb (field_name w) name) page
            then page :: pages_with name rest else pages_with name rest)
      as -> by reflexivity.
    destruct (existsb _ page); simpl length.
    + rewrite !orb_true_r. split; [reflexivity|].
      replace (6 * S (length (pages_with name rest)))%nat
        with (6 + 6 * length (pages_with name rest))%nat by lia.
      eapply logged_trans; eassumption.
    + rewrite orb_false_r. split; [reflexivity|].
      eapply (logged_trans 0); eassumption.
Qed.

(** X20.  "Show Field Info", when PyMuPDF opens the buffer and gives the
    text of every widget: one block of six log lines is written for each
    page that carries a widget with the selected name (the first such widget
    of the page, since the search stops only for that page), the error box
    is shown exactly when no page carries one, and nothing else changes.
    When PyMuPDF cannot open the buffer the exception leaves the handler. *)
Theorem show_field_info_blocks (name : string) (w : World)
    (bytes : list byte) :
  Py.truthy name = true ->
  current_pdf_bytes w = Some bytes ->
  let r := show_field_info (Some name) w in
  (forall e, fitz_widgets bytes = Raise e -> r = (w, Uncaught e)) /\
  (forall doc, fitz_widgets bytes = Ok doc ->
     forallb (forallb readable) doc = true ->
     snd r = Normal /\
     store (fst r) = store w /\
     tree (gui (fst r)) = tree (gui w) /\
     length (log_box (gui (fst r))) =
       (length (log_box (gui w)) + 6 * length (pages_with name doc))%nat /\
     boxes (gui (fst r)) =
       boxes (gui w) ++
       (if bool_decide (pages_with name doc = [])
        then [ShowError "Ошибка" "Поле не найдено в PyMuPDF (виджеты)."]
        else [])).
Proof.
  intros Hn Hc. destruct w as [cur st g]. simpl in Hc. subst cur.
  unfold show_field_info, on_selected; simpl. rewrite Hn. simpl. split.
  - intros e ->. reflexivity.
  - intros doc -> Hdoc.
    destruct (show_in_doc_blocks name 0 doc false g Hdoc)
      as (g' & -> & Ht & Hb & lines & Hl & Hlen).
    simpl. destruct (bool_decide (pages_with name doc = [])); simpl;
      rewrite ?Ht, ?Hb, ?Hl, ?length_app, ?Hlen, ?app_nil_r;
      repeat split; reflexivity.
Qed.

Lemma debug_widget_logged i w g : logged 6 g (debug_widget i w g).
Proof.
  unfold debug_widget. apply logged_log.
  destruct (xref_object w); repeat apply logged_log; apply logged_refl.
Qed.

Lemma debug_page_logged i page g :
  logged (6 * length page) g (foldl (fun g w => debug_widget i w g) g page).
Proof.
  revert g. induction page as [|w rest IH]; intros g; cbn [foldl length].
  - apply logged_refl.
  - replace (6 * S (length rest))%nat with (6 + 6 * length rest)%nat by lia.
    eapply logged_trans; [apply debug_widget_logged | apply IH].
Qed.

Lemma debug_in_doc_logged i doc found_any g :
  logged (6 * length (concat doc)) g (fst (debug_in_doc i doc found_any g)) /\
  snd (debug_in_doc i doc found_any g) =
    found_any || negb (bool_decide (concat doc = [])).
Proof.
  revert i found_any g.
  induction doc as [|page rest IH]; intros i found_any g;
    cbn [debug_in_doc concat].
  - split; [apply logged_refl | rewrite orb_false_r; reflexivity].
  - destruct (IH (S i) (found_any || negb (bool_decide (page = [])))
                (foldl (fun g w => debug_widget i w g) g page)) as [Hl Hf].
    split.
    + rewrite length_app, Nat.mul_add_distr_l.
      eapply logged_trans; [apply debug_page_logged | exact Hl].
    + rewrite Hf. destruct page; simpl.
      * rewrite orb_false_r. reflexivity.
      * rewrite !orb_true_r. reflexivity.
Qed.


(* ===================================================================== *)
(** ** "Set page link" and the other pages *)
(* ===================================================================== *)

Lemma annots_of_write_other pdf h f pg' :
  base h <> pg' ->
  (forall a', attr pdf (ind pg') "/Annots" = Some a' -> base a' <> base h) ->
  read (write pdf h f) (ind pg') = read pdf (ind pg') /\
  attr (write pdf h f) (ind pg') "/Annots" = attr pdf (ind pg') "/Annots" /\
  (forall a', attr pdf (ind pg') "/Annots" = Some a' ->
     read (write pdf h f) a' = read pdf a') /\
  annots_of (write pdf h f) pg' = annots_of pdf pg'.
Proof.
  intros Hb Ha.
  assert (read (write pdf h f) (ind pg') = read pdf (ind pg')) as Hr
    by (unfold read; rewrite lookup_loc_write_other by (simpl; congruence);
        reflexivity).
  assert (attr (write pdf h f) (ind pg') "/Annots" =
          attr pdf (ind pg') "/Annots") as Hattr
    by (unfold attr, field_get; rewrite Hr; reflexivity).
  assert (forall a', attr pdf (ind pg') "/Annots" = Some a' ->
            read (write pdf h f) a' = read pdf a') as Hread.
  { intros a' Ha'. unfold read.
    rewrite lookup_loc_write_other by (apply Ha, Ha'). reflexivity. }
  repeat split; try assumption.
  unfold annots_of. rewrite Hattr.
  destruct (attr pdf (ind pg') "/Annots") as [a'|] eqn:E; [|reflexivity].
  unfold members. rewrite (Hread a' eq_refl). reflexivity.
Qed.

Lemma setitem_P_own_list pdf w v pdf1 pg pg' :
  setitem pdf (ind w) "/P" v = Ok pdf1 ->
  own_list pdf pg pg' ->
  own_list pdf1 pg pg' /\ annots_of pdf1 pg' = annots_of pdf pg'.
Proof.
  intros Hset [Hd Hown].
  assert ("/P" <> "/Annots") as Hk by discriminate.
  assert ("/Annots" <> "/P") as Hk' by discriminate.
  destruct (annots_of_setitem_ind _ _ _ _ _ pg' Hset Hk
              (fun a' Ha' => proj1 (Hown a' Ha'))) as [Han Harr1].
  split; [|exact Han]. split.
  - rewrite (setitem_ind_is_dict _ _ _ _ _ pg' Hset). exact Hd.
  - intros a' Ha'. split; [exact (Harr1 a' Ha')|].
    rewrite (setitem_ind_attr _ _ _ _ _ pg _ Hset Hk').
    rewrite (setitem_ind_attr _ _ _ _ _ pg' _ Hset Hk') in Ha'.
    exact (proj2 (Hown a' Ha')).
Qed.

Lemma array_not_dict pdf a og :
  is_array pdf a = true -> is_dict pdf (ind og) = true -> a <> ind og.
Proof.
  unfold is_array, is_dict. intros Ha Hd ->.
  destruct (read pdf (ind og)); discriminate.
Qed.

Lemma own_base_not_page pdf pg pg' a' :
  pg' <> pg -> is_dict pdf (ind pg) = true ->
  attr pdf (ind pg') "/Annots" = Some a' -> is_array pdf a' = true ->
  base a' <> pg.
Proof.
  intros Hne Hd Ha' Harr.
  destruct (attr_ind_shape _ _ _ _ Ha') as [[ag' ->] | ->]; simpl.
  - intros ->. exact (array_not_dict _ _ _ Harr Hd eq_refl).
  - exact Hne.
Qed.

Lemma fix_annots_other_page pdf w pg pg' page_index pdf' :
  py_index (pages pdf) page_index = Some pg ->
  pg' <> pg ->
  own_list pdf pg pg' ->
  fix_annots_page_binding pdf (ind w) page_index = Ok pdf' ->
  annots_of pdf' pg' = annots_of pdf pg'.
Proof.
  intros Hidx Hne Hown Hfix. unfold fix_annots_page_binding in Hfix.
  rewrite Hidx in Hfix.
  apply bind_Ok_inv in Hfix as (pdf1 & Hset1 & Hfix).
  destruct (setitem_P_own_list _ _ _ _ pg pg' Hset1 Hown) as [[Hd1 Hown1] Han1].
  rewrite <- Han1. clear Han1 Hown Hset1 Hidx pdf.
  apply bind_Ok_inv in Hfix as (has_annots & Hhas & Hfix).
  apply bind_Ok_inv in Hfix as (pdf2 & Hpdf2 & Hfix).
  assert (is_dict pdf1 (ind pg) = true) as Hpg1.
  { unfold has_key in Hhas. unfold is_dict.
    destruct (read pdf1 (ind pg)); try discriminate. reflexivity. }
  (* the page gets its list, if it had none *)
  assert (annots_of pdf2 pg' = annots_of pdf1 pg' /\
          is_dict pdf2 (ind pg') = true /\
          is_dict pdf2 (ind pg) = true /\
          forall a', attr pdf2 (ind pg') "/Annots" = Some a' ->
            is_array pdf2 a' = true /\
            attr pdf2 (ind pg) "/Annots" <> Some a') as (Han2 & Hd2 & Hpg2 & Hown2).
  { destruct has_annots.
    - injection Hpdf2 as <-. auto.
    - pose proof (setitem_ind_is_dict _ _ _ _ _ pg Hpdf2) as Hpg2.
      rewrite Hpg1 in Hpg2.
      destruct (attr_setitem _ _ _ _ _ Hpdf2) as [Hattr2 Hread2].
      specialize (Hread2 eq_refl). simpl in Hattr2, Hread2.
      unfold setitem in Hpdf2.
      destruct (read pdf1 (ind pg)) as [| | | | | | |kv|] eqn:Hr; try discriminate.
      injection Hpdf2 as <-.
      destruct (annots_of_write_other pdf1 (ind pg)
                  (fun _ => ODict (dict_set "/Annots" (OArr []) kv)) pg')
        as (Hr' & Hattr' & Hread' & Han').
      + simpl. congruence.
      + intros a' Ha'. simpl.
        apply (own_base_not_page pdf1 pg pg' a' Hne Hpg1 Ha').
        apply Hown1, Ha'.
      + split; [exact Han'|]. split.
        { unfold is_dict. rewrite Hr'. exact Hd1. }
        split; [exact Hpg2|].
        intros a' Ha'. rewrite Hattr' in Ha'. split.
        * unfold is_array. rewrite (Hread' a' Ha').
          apply Hown1, Ha'.
        * rewrite Hattr2. intros [= <-].
          destruct (attr_ind_shape _ _ _ _ Ha') as [[ag' E] | E];
            [discriminate E | injection E as E; congruence]. }
  rewrite <- Han2. clear Han2 Hpdf2 Hhas Hown1 Hd1 Hpg1 pdf1.
  simpl in Hfix.
  apply bind_Ok_inv in Hfix as (annots & Hget & Hfix).
  apply bind_Ok_inv in Hfix as (elems & Hit & Hfix).
  destruct (existsb _ elems); [injection Hfix as <-; reflexivity|].
  unfold getitem in Hget. apply bind_Ok_inv in Hget as (o & Ho & Hget).
  apply get_Ok_attr in Ho. destruct o as [annots'|]; [|discriminate].
  injection Hget as ->. symmetry in Ho.
  unfold append in Hfix.
  destruct (read pdf2 annots) as [| | | | | |l| |] eqn:Hl; try discriminate.
  injection Hfix as <-.
  assert (is_array pdf2 annots = true) as Harr
    by (unfold is_array; rewrite Hl; reflexivity).
  apply annots_of_write_other.
  - destruct (attr_ind_shape _ _ _ _ Ho) as [[ag ->] | ->]; simpl.
    + intros ->. exact (array_not_dict _ _ _ Harr Hd2 eq_refl).
    + congruence.
  - intros a' Ha'. destruct (Hown2 a' Ha') as [Harr' Hshare].
    destruct (attr_ind_shape _ _ _ _ Ho) as [[ag ->] | ->]; simpl.
    + destruct (attr_ind_shape _ _ _ _ Ha') as [[ag' ->] | ->]; simpl.
      * intros ->. apply Hshare. exact Ho.
      * intros ->. exact (array_not_dict _ _ _ Harr Hd2 eq_refl).
    + apply (own_base_not_page pdf2 pg pg' a' Hne Hpg2 Ha' Harr').
Qed.


End Editor.

(* ===================================================================== *)
(** ** The program run on the small documents *)
(* ===================================================================== *)

Example load_widget_plain : load_widget demo_pdf "F" = Ok (Some (ind (4, 0))).
Proof. reflexivity. Qed.

(** "B" is the name of a child of the group and of a later plain field: the
    child comes first. *)
Example load_widget_first_match :
  load_widget demo_pdf_kids "B" = Ok (Some (ind (7, 0))).
Proof. reflexivity. Qed.

(** No child of the group is called "G"; the group's own name is, and the
    group is what is returned. *)
Example load_widget_group_itself :
  load_widget demo_pdf_kids "G" = Ok (Some (ind (5, 0))).
Proof. reflexivity. Qed.

Example load_widget_no_match : load_widget demo_pdf_kids "Z" = Ok None.
Proof. reflexivity. Qed.

Example report_kids :
  report demo_float_repr demo_obj_str [3; 4] demo_pdf_kids =
    Ok [mkRow (CObj (OStr "A")) 1 (CNum 1) "3 0 R" "[0.0, 0.0, 100.0, 20.0]";
        mkRow (CObj (OStr "B")) 1 (CText "(invalid)") "(inline)" "[]"].
Proof. vm_compute. reflexivity. Qed.

Lemma demo_float_repr_on_integers : float_repr_on_integers demo_float_repr.
Proof.
  intros z _. unfold demo_float_repr, dec_of_Z. simpl.
  rewrite Z.quot_1_r. reflexivity.
Qed.

Lemma apply_change_failure_leaves_store_witness :
  current_pdf_bytes demo_world_unreadable = Some [] /\
  Fails demo_open demo_save (change_clear_rect "F") []
        (gui demo_world_unreadable) "cannot open an empty file"
        (gui demo_world_unreadable) /\
  store (fst (apply_change demo_open demo_save demo_fitz demo_float_repr
                demo_obj_str (change_clear_rect "F")
                "Clear /Rect (empty array)" demo_world_unreadable)) =
    (Some [], [demo_saved]).
Proof.
  assert (current_pdf_bytes demo_world_unreadable = Some []) as H1
    by reflexivity.
  assert (Fails demo_open demo_save (change_clear_rect "F") []
            (gui demo_world_unreadable) "cannot open an empty file"
            (gui demo_world_unreadable)) as H2
    by (apply fails_parse; reflexivity).
  split; [exact H1|]. split; [exact H2|].
  exact (proj2 (proj2 (proj2 (proj2
    (apply_change_failure_leaves_store demo_open demo_save demo_fitz
       demo_float_repr demo_obj_str (change_clear_rect "F")
       "Clear /Rect (empty array)" demo_world_unreadable [] _ _ H1 H2))))).
Defined.

Lemma apply_change_then_undo_witness :
  current_pdf_bytes demo_world = Some ["%"%byte; "1"%byte] /\
  Succeeds demo_open demo_save (change_clear_rect "F") ["%"%byte; "1"%byte]
           (gui demo_world) demo_saved /\
  (let w1 := fst (apply_change demo_open demo_save demo_fitz demo_float_repr
                    demo_obj_str (change_clear_rect "F")
                    "Clear /Rect (empty array)" demo_world) in
   let w2 := fst (action_undo demo_open demo_fitz demo_float_repr
                    demo_obj_str w1) in
   current_pdf_bytes w1 = Some demo_saved /\
   undo_stack w1 = undo_stack demo_world ++ [["%"%byte; "1"%byte]] /\
   current_pdf_bytes w2 = Some ["%"%byte; "1"%byte] /\
   undo_stack w2 = undo_stack demo_world /\
   length (undo_stack w2) = length (undo_stack demo_world)).
Proof.
  assert (current_pdf_bytes demo_world = Some ["%"%byte; "1"%byte]) as H1
    by reflexivity.
  assert (Succeeds demo_open demo_save (change_clear_rect "F")
            ["%"%byte; "1"%byte] (gui demo_world) demo_saved) as H2
    by (exists demo_pdf; do 2 eexists; repeat split; reflexivity).
  split; [exact H1|]. split; [exact H2|].
  exact (apply_change_then_undo demo_open demo_save demo_fitz demo_float_repr
           demo_obj_str (change_clear_rect "F") "Clear /Rect (empty array)"
           demo_world _ _ H1 H2).
Defined.

Lemma action_undo_empty_history_witness :
  undo_stack demo_world = [] /\
  snd (action_undo demo_open demo_fitz demo_float_repr demo_obj_str
         demo_world) = Normal /\
  current_pdf_bytes
    (fst (action_undo demo_open demo_fitz demo_float_repr demo_obj_str
            demo_world)) = current_pdf_bytes demo_world.
Proof.
  assert (undo_stack demo_world = []) as H1 by reflexivity.
  split; [exact H1|].
  destruct (action_undo_empty_history demo_open demo_fitz demo_float_repr
              demo_obj_str demo_world H1) as (Hn & Hc & _).
  split; [exact Hn | exact Hc].
Defined.

Lemma delete_rect_key_absent_noop_witness :
  load_widget demo_pdf "F" = Ok (Some (ind (4, 0))) /\
  field_get demo_pdf (ind (4, 0)) "/Rect" = None /\
  store (fst (action_delete_rect_key demo_open demo_save demo_fitz
                demo_float_repr demo_obj_str (Some "F") demo_world)) =
    store demo_world.
Proof.
  assert (load_widget demo_pdf "F" = Ok (Some (ind (4, 0)))) as H1
    by reflexivity.
  assert (field_get demo_pdf (ind (4, 0)) "/Rect" = None) as H2
    by reflexivity.
  split; [exact H1|]. split; [exact H2|].
  destruct (delete_rect_key_absent_noop demo_open demo_save demo_fitz
              demo_float_repr demo_obj_str "F" demo_world
              ["%"%byte; "1"%byte] demo_pdf (ind (4, 0))
              eq_refl eq_refl H1 H2) as (_ & _ & _ & _ & Hs).
  exact Hs.
Defined.

(** The failing input of C2: the field "F" of [demo_pdf] has no "/P", and
    "Delete page link" pushes the old buffer and installs a new one. *)
Lemma delete_p_absent_reports_change_witness :
  load_widget demo_pdf "F" = Ok (Some (ind (4, 0))) /\
  field_get demo_pdf (ind (4, 0)) "/P" = None /\
  store (fst (apply_change demo_open demo_save demo_fitz demo_float_repr
                demo_obj_str (change_delete_p "F") "Delete /P" demo_world)) =
    (Some demo_saved, [["%"%byte; "1"%byte]]).
Proof.
  assert (load_widget demo_pdf "F" = Ok (Some (ind (4, 0)))) as H1
    by reflexivity.
  assert (field_get demo_pdf (ind (4, 0)) "/P" = None) as H2 by reflexivity.
  split; [exact H1|]. split; [exact H2|].
  exact (proj2 (delete_p_absent_reports_change demo_open demo_save demo_fitz
                  demo_float_repr demo_obj_str "F" demo_world
                  ["%"%byte; "1"%byte] demo_saved demo_pdf (ind (4, 0))
                  eq_refl eq_refl H1 H2 eq_refl)).
Defined.

Lemma set_p_empty_present_but_empty_witness :
  load_widget demo_pdf_kids "B" = Ok (Some (ind (7, 0))) /\
  exists pdf' g',
    change_set_p_empty "B" demo_pdf_kids demo_gui = Returned true pdf' g' /\
    field_get pdf' (ind (7, 0)) "/P" = Some (OArr []) /\
    field_get pdf' (ind (7, 0)) "/P" <> None.
Proof.
  assert (load_widget demo_pdf_kids "B" = Ok (Some (ind (7, 0)))) as H1
    by reflexivity.
  split; [exact H1|].
  exact (proj1 (set_p_empty_present_but_empty demo_open demo_save demo_fitz
                  demo_float_repr demo_obj_str "B" demo_pdf_kids (ind (7, 0))
                  demo_gui H1)).
Defined.







(* ===================================================================== *)
(** ** The further properties on the small documents *)
(* ===================================================================== *)

Lemma apply_change_gives_up_witness :
  current_pdf_bytes demo_world = Some ["%"%byte; "1"%byte] /\
  demo_open ["%"%byte; "1"%byte] = Ok demo_pdf /\
  exists g,
    change_delete_rect_key "F" demo_pdf (gui demo_world) =
      Returned false demo_pdf g /\
    apply_change demo_open demo_save demo_fitz demo_float_repr demo_obj_str
      (change_delete_rect_key "F") "Delete /Rect key" demo_world =
      (with_gui g demo_world, Normal).
Proof.
  split; [reflexivity|]. split; [reflexivity|].
  eexists. split; [reflexivity|].
  exact (proj2 (apply_change_gives_up demo_open demo_save demo_fitz
                  demo_float_repr demo_obj_str (change_delete_rect_key "F")
                  "Delete /Rect key" demo_world)
           ["%"%byte; "1"%byte] demo_pdf demo_pdf _ eq_refl eq_refl eq_refl).
Defined.

Lemma undo_is_last_in_first_out_witness :
  current_pdf_bytes demo_world = Some ["%"%byte; "1"%byte] /\
  (let w1 := fst (apply_change demo_open demo_save demo_fitz demo_float_repr
                    demo_obj_str (change_clear_rect "F") "Clear /Rect"
                    demo_world) in
   let w2 := fst (apply_change demo_open demo_save demo_fitz demo_float_repr
                    demo_obj_str (change_set_p_empty "F") "Set /P" w1) in
   let w3 := fst (action_undo demo_open demo_fitz demo_float_repr
                    demo_obj_str w2) in
   let w4 := fst (action_undo demo_open demo_fitz demo_float_repr
                    demo_obj_str w3) in
   store w2 = (Some demo_saved, [["%"%byte; "1"%byte]; demo_saved]) /\
   store w3 = (Some demo_saved, [["%"%byte; "1"%byte]]) /\
   store w4 = (Some ["%"%byte; "1"%byte], [])).
Proof.
  assert (current_pdf_bytes demo_world = Some ["%"%byte; "1"%byte]) as H1
    by reflexivity.
  assert (Succeeds demo_open demo_save (change_clear_rect "F")
            ["%"%byte; "1"%byte] (gui demo_world) demo_saved) as H2
    by (exists demo_pdf; do 2 eexists; repeat split; reflexivity).
  assert (Succeeds demo_open demo_save (change_set_p_empty "F") demo_saved
            (gui (fst (apply_change demo_open demo_save demo_fitz
                         demo_float_repr demo_obj_str (change_clear_rect "F")
                         "Clear /Rect" demo_world))) demo_saved) as H3
    by (exists demo_pdf; do 2 eexists; repeat split; reflexivity).
  split; [exact H1|].
  exact (undo_is_last_in_first_out demo_open demo_save demo_fitz
           demo_float_repr demo_obj_str (change_clear_rect "F")
           (change_set_p_empty "F") "Clear /Rect" "Set /P" demo_world
           _ _ _ H1 H2 H3).
Defined.

Lemma refresh_fields_unreadable_witness :
  current_pdf_bytes demo_world_unreadable = Some [] /\
  demo_fitz [] = Raise "cannot open an empty file" /\
  refresh_fields demo_open demo_fitz demo_float_repr demo_obj_str
    demo_world_unreadable =
    (with_gui
       (log "❌ PyMuPDF error: cannot open an empty file"
          (set_tree [] (gui demo_world_unreadable)))
       demo_world_unreadable, Normal).
Proof.
  split; [reflexivity|]. split; [reflexivity|].
  exact (proj1 (refresh_fields_unreadable demo_open demo_fitz demo_float_repr
                  demo_obj_str demo_world_unreadable [] eq_refl)
           "cannot open an empty file" eq_refl).
Defined.


Lemma field_not_found_changes_nothing_witness :
  load_widget demo_pdf_kids "Z" = Ok None /\
  change_delete_p "Z" demo_pdf_kids demo_gui =
    Returned false demo_pdf_kids
      (messagebox (ShowError "Ошибка" "Поле не найдено.") demo_gui).
Proof.
  assert (load_widget demo_pdf_kids "Z" = Ok None) as H1 by reflexivity.
  split; [exact H1|].
  exact (proj1 (proj2 (proj2 (proj2
    (field_not_found_changes_nothing demo_open demo_save demo_fitz
       demo_float_repr demo_obj_str "Z" demo_pdf_kids demo_gui H1))))).
Defined.

Lemma clear_rect_present_but_empty_witness :
  load_widget demo_pdf_kids "A" = Ok (Some (ind (6, 0))) /\
  exists pdf' g',
    change_clear_rect "A" demo_pdf_kids demo_gui = Returned true pdf' g' /\
    field_get pdf' (ind (6, 0)) "/Rect" = Some (OArr []) /\
    pages pdf' = pages demo_pdf_kids.
Proof.
  assert (load_widget demo_pdf_kids "A" = Ok (Some (ind (6, 0)))) as H1
    by reflexivity.
  split; [exact H1|].
  destruct (clear_rect_present_but_empty demo_float_repr demo_obj_str "A"
              demo_pdf_kids (ind (6, 0)) demo_gui H1)
    as (pdf' & g' & Hc & Hr & _ & Hp & _).
  exists pdf', g'. split; [exact Hc|]. split; [exact Hr | exact Hp].
Defined.






Lemma report_rows_by_page_witness :
  exists rows,
    report demo_float_repr demo_obj_str [3; 4] demo_pdf_kids = Ok rows /\
    col_phys_page <$> rows = [1; 1] /\
    StronglySorted Z.le (col_phys_page <$> rows).
Proof.
  eexists. split; [reflexivity|]. split; [reflexivity|].
  exact (proj2 (report_rows_by_page demo_float_repr demo_obj_str [3; 4]
                  demo_pdf_kids _ eq_refl)).
Defined.

Lemma page_num_names_a_page_witness :
  page_num [3; 4] (Some (ind (4, 0))) = CNum 2 /\
  exists p og i,
    Some (ind (4, 0)) = Some p /\ objgen_of p = Some og /\
    2 = Z.of_nat i + 1 /\
    1 <= 2 <= Z.of_nat (length [3; 4]) /\
    [3; 4] !! i = Some (fst og) /\
    forall j, (j < i)%nat -> [3; 4] !! j <> Some (fst og).
Proof.
  assert (page_num [3; 4] (Some (ind (4, 0))) = CNum 2) as H1 by reflexivity.
  split; [exact H1|].
  exact (page_num_names_a_page [3; 4] (Some (ind (4, 0))) 2 H1).
Defined.

Lemma choose_pdf_outcomes_witness :
  "in.pdf" <> "" /\
  demo_read demo_disk "in.pdf" = Ok ["%"%byte; "1"%byte] /\
  (let r := choose_pdf demo_open demo_fitz demo_float_repr demo_obj_str
              (gmap string (list byte)) demo_read "in.pdf" demo_disk ""
              demo_world_unreadable in
   store (fst (fst r)) = (Some ["%"%byte; "1"%byte], []) /\
   snd (fst r) = "in.pdf").
Proof.
  assert ("in.pdf" <> "") as H1 by discriminate.
  assert (demo_read demo_disk "in.pdf" = Ok ["%"%byte; "1"%byte]) as H2
    by reflexivity.
  split; [exact H1|]. split; [exact H2|].
  destruct (proj2 (proj2 (choose_pdf_outcomes demo_open demo_fitz
                            demo_float_repr demo_obj_str
                            (gmap string (list byte)) demo_read "in.pdf"
                            demo_disk "" demo_world_unreadable)) _ H1 H2)
    as (Hs & Hp & _).
  split; [exact Hs | exact Hp].
Defined.

Lemma action_save_as_writes_buffer_witness :
  current_pdf_bytes demo_world = Some ["%"%byte; "1"%byte] /\
  "out.pdf" <> "" /\
  snd (fst (action_save_as (gmap string (list byte)) demo_write demo_basename
              (fun _ => "out.pdf") demo_disk "in.pdf" demo_world)) =
    fst (demo_write demo_disk "out.pdf" ["%"%byte; "1"%byte]).
Proof.
  assert (current_pdf_bytes demo_world = Some ["%"%byte; "1"%byte]) as H1
    by reflexivity.
  assert ("out.pdf" <> "") as H2 by discriminate.
  split; [exact H1|]. split; [exact H2|].
  destruct (action_save_as_writes_buffer (gmap string (list byte)) demo_write
              demo_basename (fun _ => "out.pdf") demo_disk "in.pdf"
              demo_world) as (_ & _ & _ & _ & _ & Hw & _).
  exact (Hw _ H1 H2).
Defined.

Lemma open_then_save_round_trip_witness :
  "in.pdf" <> "" /\
  demo_read demo_disk "in.pdf" = Ok ["%"%byte; "1"%byte] /\
  (let opened := fst (choose_pdf demo_open demo_fitz demo_float_repr
                        demo_obj_str (gmap string (list byte)) demo_read
                        "in.pdf" demo_disk "" demo_world_unreadable) in
   let r := action_save_as (gmap string (list byte)) demo_write demo_basename
              (fun _ => "out.pdf") demo_disk (snd opened) (fst opened) in
   demo_read (snd (fst r)) "out.pdf" = Ok ["%"%byte; "1"%byte]).
Proof.
  assert ("in.pdf" <> "") as H1 by discriminate.
  assert (demo_read demo_disk "in.pdf" = Ok ["%"%byte; "1"%byte]) as H2
    by reflexivity.
  assert ("out.pdf" <> "") as H3 by discriminate.
  split; [exact H1|]. split; [exact H2|].
  apply (proj2 (open_then_save_round_trip demo_open demo_fitz demo_float_repr
                  demo_obj_str (gmap string (list byte)) demo_read demo_write
                  demo_basename (fun _ => "out.pdf") "in.pdf" demo_disk ""
                  demo_world_unreadable _ H1 H2 H3)).
  - intros d p b d' Hw. injection Hw as <-.
    unfold demo_read. rewrite lookup_insert_eq. reflexivity.
  - reflexivity.
Defined.

Lemma show_field_info_blocks_witness :
  Py.truthy "B" = true /\
  current_pdf_bytes demo_world = Some ["%"%byte; "1"%byte] /\
  (let r := show_field_info demo_widgets (Some "B") demo_world in
   snd r = Normal /\
   length (log_box (gui (fst r))) = 12%nat /\
   boxes (gui (fst r)) = []).
Proof.
  assert (Py.truthy "B" = true) as H1 by reflexivity.
  assert (current_pdf_bytes demo_world = Some ["%"%byte; "1"%byte]) as H2
    by reflexivity.
  split; [exact H1|]. split; [exact H2|].
  destruct (proj2 (show_field_info_blocks demo_widgets "B" demo_world _ H1 H2)
              _ eq_refl eq_refl) as (Hn & _ & _ & Hl & Hb).
  split; [exact Hn|]. split; [exact Hl | exact Hb].
Defined.


